(** * Docs/doc_diff.py: the documentation consistency checker

    A shallow embedding of the script [Docs/doc_diff.py] and of the part of
    the Python runtime it drives (path strings, a POSIX file tree,
    [os], [filecmp], [shutil], [print], [sys.exit]), followed by the
    properties of the locator, the builder, the comparator and the
    orchestrator.

    Conventions.
    - A Python [str] and the bytes of a file are both [string].  The text
      codec of [open] is a parameter ([encode], [decode]).
    - A computation is a function from the machine state to a result and
      the state it leaves behind.  An exception keeps the state reached
      when it was raised: what was written before stays written.
    - The state carries a trace of the calls that matter to the
      properties; the most recent event is the head of the list.

    Outside the model: symbolic links, permissions and failing devices
    (a call fails only for the reasons written in its definition), the
    table in which [filecmp] remembers earlier answers, the case mapping
    of letters that are not ASCII, and whatever an evaluated identifier
    does besides naming an object, raising or ending the process. *)

From Stdlib Require Import String Ascii List ZArith Bool Lia.
Import ListNotations.
Local Open Scope string_scope.
Local Open Scope list_scope.

Notation "a +++ b" := (String.append a b) (at level 60, right associativity).

(** ** Python string operations used by the script *)

Module PyStr.

(** [s.split(sep)] for a separator of one character.  The result is never
    empty: [''.split('/')] is [['']]. *)
Fixpoint split (sep : ascii) (s : string) : list string :=
  match s with
  | EmptyString => [EmptyString]
  | String c rest =>
      if Ascii.eqb c sep then EmptyString :: split sep rest
      else match split sep rest with
           | [] => [String c EmptyString]
           | w :: ws => String c w :: ws
           end
  end.

(** [sep.join(l)] *)
Definition join (sep : string) (l : list string) : string := String.concat sep l.

(** [s.replace(a, b)] for one-character [a] and [b]. *)
Fixpoint replace (a b : ascii) (s : string) : string :=
  match s with
  | EmptyString => EmptyString
  | String c rest => String (if Ascii.eqb c a then b else c) (replace a b rest)
  end.

(** [s.lower()] on the ASCII letters; other bytes are left as they are. *)
Definition lower_ascii (c : ascii) : ascii :=
  let n := nat_of_ascii c in
  if (65 <=? n)%nat && (n <=? 90)%nat then ascii_of_nat (n + 32) else c.

Fixpoint lower (s : string) : string :=
  match s with
  | EmptyString => EmptyString
  | String c rest => String (lower_ascii c) (lower rest)
  end.

(** [l[0]] of a list that [split] returned. *)
Definition first (l : list string) : string := hd EmptyString l.

(** [s.rstrip(a)] *)
Fixpoint rstrip (a : ascii) (s : string) : string :=
  match s with
  | EmptyString => EmptyString
  | String c rest =>
      match rstrip a rest with
      | EmptyString => if Ascii.eqb c a then EmptyString else String c EmptyString
      | r => String c r
      end
  end.

(** [s == a * len(s)] *)
Fixpoint all_char (a : ascii) (s : string) : bool :=
  match s with
  | EmptyString => true
  | String c rest => Ascii.eqb c a && all_char a rest
  end.

(** [s[: s.rfind(a) + 1]]: the text up to and with the last [a]. *)
Fixpoint upto_last (a : ascii) (s : string) : string :=
  match s with
  | EmptyString => EmptyString
  | String c rest =>
      match upto_last a rest with
      | EmptyString => if Ascii.eqb c a then String c EmptyString else EmptyString
      | h => String c h
      end
  end.

(** [posixpath.dirname] *)
Definition dirname (p : string) : string :=
  let head := upto_last "/" p in
  if negb (head =? "") && negb (all_char "/" head) then rstrip "/" head else head.

(** What text mode does to line ends on reading: CR LF and CR become LF. *)
Fixpoint universal_newlines (s : string) : string :=
  match s with
  | EmptyString => EmptyString
  | String c rest =>
      if Ascii.eqb c "013" then
        String "010"
          match rest with
          | String c2 rest2 =>
              if Ascii.eqb c2 "010" then universal_newlines rest2
              else universal_newlines rest
          | EmptyString => EmptyString
          end
      else String c (universal_newlines rest)
  end.

End PyStr.

(** ** Exceptions and results *)

Inductive exn : Type :=
| FileNotFoundError
| NotADirectoryError
| IsADirectoryError
| FileExistsError
| OSError
| NameError
| AttributeError
| SyntaxError
| UnicodeError
| SystemExit (code : Z).

Inductive result (A : Type) : Type :=
| Ok (a : A)
| Raise (e : exn).
Arguments Ok {A} a.
Arguments Raise {A} e.

Definition is_ok {A} (r : result A) : bool :=
  match r with Ok _ => true | Raise _ => false end.

(** ** The file tree *)

Module FS.

(** An absolute location: the names from the root down. *)
Definition path := list string.

(** A regular file has its bytes and its modification time; directories
    carry nothing the script looks at. *)
Inductive node : Type :=
| File (content : string) (mtime : Z)
| Dir.

(** The tree is a table from locations to nodes.  The order of the table
    is the order in which a directory lists its entries. *)
Definition t := list (path * node).

Definition path_eq_dec : forall p q : path, {p = q} + {p <> q} :=
  list_eq_dec string_dec.

Fixpoint lookup (fs : t) (p : path) : option node :=
  match fs with
  | [] => None
  | (q, n) :: rest => if path_eq_dec q p then Some n else lookup rest p
  end.

(** Put [n] at [p]: in place when [p] is there, at the end otherwise. *)
Fixpoint set (p : path) (n : node) (fs : t) : t :=
  match fs with
  | [] => [(p, n)]
  | (q, m) :: rest =>
      if path_eq_dec q p then (q, n) :: rest else (q, m) :: set p n rest
  end.

Fixpoint is_prefix (q p : path) : bool :=
  match q, p with
  | [], _ => true
  | a :: q', b :: p' => (a =? b)%string && is_prefix q' p'
  | _ :: _, [] => false
  end.

(** Remove [q] and all that lies below it. *)
Definition remove_tree (q : path) (fs : t) : t :=
  filter (fun e => negb (is_prefix q (fst e))) fs.

(** Remove what lies strictly below [q]. *)
Definition remove_below (q : path) (fs : t) : t :=
  filter (fun e => negb (is_prefix q (fst e)) || if path_eq_dec (fst e) q then true else false) fs.

(** [child_name q p] is [Some n] when [p] is the entry [n] of [q]. *)
Fixpoint child_name (q p : path) : option string :=
  match q, p with
  | [], [n] => Some n
  | a :: q', b :: p' => if (a =? b)%string then child_name q' p' else None
  | _, _ => None
  end.

Definition children (q : path) (fs : t) : list string :=
  flat_map (fun e => match child_name q (fst e) with
                     | Some n => [n]
                     | None => []
                     end) fs.

Definition is_dir (fs : t) (p : path) : bool :=
  match lookup fs p with Some Dir => true | _ => false end.

(** One name of a path string, from the directory [cur]. *)
Definition step (cur : path) (c : string) : path :=
  if (c =? ".")%string then cur
  else if (c =? "..")%string then removelast cur
  else cur ++ [c].

(** Follow the names [comps] from [cur].  A name is looked up in a
    directory only: the location reached before each name has to be one.
    An empty name (two slashes in a row, a slash at the end) is passed
    over. *)
Fixpoint walk (fs : t) (cur : path) (comps : list string) : result path :=
  match comps with
  | [] => Ok cur
  | c :: rest =>
      if (c =? "")%string then walk fs cur rest
      else
        match lookup fs cur with
        | Some Dir => walk fs (step cur c) rest
        | Some (File _ _) => Raise NotADirectoryError
        | None => Raise FileNotFoundError
        end
  end.

(** Resolution of a path string: from the root when it starts with a
    slash, from the working directory otherwise.  The empty string names
    nothing. *)
Definition resolve (fs : t) (cwd : path) (p : string) : result path :=
  match p with
  | EmptyString => Raise FileNotFoundError
  | String c _ =>
      walk fs (if Ascii.eqb c "/" then [] else cwd) (PyStr.split "/" p)
  end.

(** The last name of a path string that is not empty. *)
Definition last_name (p : string) : string :=
  last (filter (fun c => negb (c =? "")%string) (PyStr.split "/" p)) EmptyString.

(** *** The system calls, as functions of the tree *)

(** [os.stat] *)
Definition stat (fs : t) (cwd : path) (p : string) : result node :=
  match resolve fs cwd p with
  | Ok q =>
      match lookup fs q with
      | Some n => Ok n
      | None => Raise FileNotFoundError
      end
  | Raise e => Raise e
  end.

(** [os.path.isdir]: never raises. *)
Definition isdir (fs : t) (cwd : path) (p : string) : bool :=
  match resolve fs cwd p with
  | Ok q => is_dir fs q
  | Raise _ => false
  end.

(** [os.mkdir]: one level, the parent has to be there. *)
Definition mkdir (fs : t) (cwd : path) (p : string) : result t :=
  match resolve fs cwd p with
  | Ok q =>
      match lookup fs q with
      | Some _ => Raise FileExistsError
      | None =>
          if is_dir fs (removelast q) then Ok (set q Dir fs)
          else Raise FileNotFoundError
      end
  | Raise e => Raise e
  end.

(** [os.listdir]: the names of the entries, in the order of the table. *)
Definition listdir (fs : t) (cwd : path) (p : string) : result (list string) :=
  match resolve fs cwd p with
  | Ok q =>
      match lookup fs q with
      | Some Dir => Ok (children q fs)
      | Some (File _ _) => Raise NotADirectoryError
      | None => Raise FileNotFoundError
      end
  | Raise e => Raise e
  end.

(** [open(p, 'w')]: the location that is created or emptied. *)
Definition create (fs : t) (cwd : path) (p : string) : result path :=
  match resolve fs cwd p with
  | Ok q =>
      match lookup fs q with
      | Some Dir => Raise IsADirectoryError
      | _ => if is_dir fs (removelast q) then Ok q else Raise FileNotFoundError
      end
  | Raise e => Raise e
  end.

(** [open(p)] and reading all of it: the bytes. *)
Definition read_bytes (fs : t) (cwd : path) (p : string) : result string :=
  match resolve fs cwd p with
  | Ok q =>
      match lookup fs q with
      | Some (File bytes _) => Ok bytes
      | Some Dir => Raise IsADirectoryError
      | None => Raise FileNotFoundError
      end
  | Raise e => Raise e
  end.

(** [os.rmdir] refuses the root and a path whose last name is a dot or
    two dots. *)
Definition rmdir_refused (p : string) (q : path) : bool :=
  match q with
  | [] => true
  | _ => (last_name p =? ".")%string || (last_name p =? "..")%string
  end.

(** [shutil.rmtree]: empties the directory, then removes it.  When the
    removal of the directory itself is refused the entries are gone all
    the same. *)
Definition rmtree (fs : t) (cwd : path) (p : string) : result unit * t :=
  match resolve fs cwd p with
  | Ok q =>
      match lookup fs q with
      | Some Dir =>
          if rmdir_refused p q then (Raise OSError, remove_below q fs)
          else (Ok tt, remove_tree q fs)
      | Some (File _ _) => (Raise NotADirectoryError, fs)
      | None => (Raise FileNotFoundError, fs)
      end
  | Raise e => (Raise e, fs)
  end.

(** [init_dir] of the script, on the tree alone. *)
Definition ensure_dir (fs : t) (cwd : path) (p : string) : result t :=
  if isdir fs cwd p then Ok fs else mkdir fs cwd p.

End FS.

(** ** Machine state and computations *)

Inductive event : Type :=
| EPrint (line : string)
| EMkdir (p : string)
| EWrite (p : string)
| ERead (p : string)
| ECmp (f1 f2 : string) (verdict : bool)
| ERmtree (p : string).

Record state : Type := mkState {
  fs : FS.t;                 (* the disk *)
  cwd : FS.path;             (* the working directory of the process *)
  ticks : nat;               (* how many files the process has written *)
  doc_dirs : list string;    (* the module global [doc_dirs] *)
  trace : list event         (* most recent first *)
}.

Definition with_doc_dirs (l : list string) (st : state) : state :=
  mkState (fs st) (cwd st) (ticks st) l (trace st).

Definition with_event (e : event) (st : state) : state :=
  mkState (fs st) (cwd st) (ticks st) (doc_dirs st) (e :: trace st).

Definition M (A : Type) : Type := state -> result A * state.

Definition ret {A} (a : A) : M A := fun st => (Ok a, st).

Definition raise {A} (e : exn) : M A := fun st => (Raise e, st).

Definition bind {A B} (m : M A) (k : A -> M B) : M B :=
  fun st =>
    match m st with
    | (Ok a, st') => k a st'
    | (Raise e, st') => (Raise e, st')
    end.

Notation "x <- m ;; k" := (bind m (fun x => k))
  (at level 61, m at next level, right associativity).
Notation "m ;;; k" := (bind m (fun _ => k))
  (at level 61, right associativity).

Definition lift {A} (r : result A) : M A := fun st => (r, st).

Definition get_fs : M FS.t := fun st => (Ok (fs st), st).
Definition get_doc_dirs : M (list string) := fun st => (Ok (doc_dirs st), st).

Definition set_fs (f : FS.t) : M unit :=
  fun st => (Ok tt, mkState f (cwd st) (ticks st) (doc_dirs st) (trace st)).

Definition set_doc_dirs (l : list string) : M unit :=
  fun st => (Ok tt, with_doc_dirs l st).

Definition emit (e : event) : M unit :=
  fun st => (Ok tt, with_event e st).

Definition tick : M nat :=
  fun st => (Ok (ticks st), mkState (fs st) (cwd st) (S (ticks st)) (doc_dirs st) (trace st)).

Definition get_cwd : M FS.path := fun st => (Ok (cwd st), st).

(** ** What the script takes from outside

    - [py_eval] is [eval] in the namespace of the script (it has imported
      [netket]): it gives the object the text names, raises an ordinary
      exception when the text names none, or raises [SystemExit] when the
      text ends the process.  The evaluation is taken to do nothing else:
      a text that changes the disk while it is evaluated is outside the
      model;
    - [format_class] is [format.format_class], trusted to return text;
    - [make_file] is [difflib.HtmlDiff().make_file];
    - [encode] and [decode] are the text codec [open] uses;
    - [mtime_at n] is the modification time the system gives to the
      [n]-th file this process writes. *)

Record world : Type := mkWorld {
  obj : Type;
  py_eval : string -> result obj;
  format_class : obj -> string;
  make_file : list string -> list string -> string;
  encode : string -> result string;
  decode : string -> result string;
  mtime_at : nat -> Z
}.

Section Runtime.

Context (W : world).

Definition print (line : string) : M unit := emit (EPrint line).

Definition os_path_isdir (p : string) : M bool :=
  f <- get_fs ;;
  c <- get_cwd ;;
  ret (FS.isdir f c p).

Definition os_mkdir (p : string) : M unit :=
  f <- get_fs ;;
  c <- get_cwd ;;
  f' <- lift (FS.mkdir f c p) ;;
  set_fs f' ;;;
  emit (EMkdir p).

Definition os_listdir (p : string) : M (list string) :=
  f <- get_fs ;;
  c <- get_cwd ;;
  lift (FS.listdir f c p).

(** [with open(p, 'w') as h: h.write(text)].  Opening creates or empties
    the file; a text that cannot be encoded leaves it empty. *)
Definition write_file (p : string) (text : string) : M unit :=
  f <- get_fs ;;
  c <- get_cwd ;;
  q <- lift (FS.create f c p) ;;
  n <- tick ;;
  emit (EWrite p) ;;;
  match encode W text with
  | Ok bytes => set_fs (FS.set q (FS.File bytes (mtime_at W n)) f)
  | Raise e =>
      set_fs (FS.set q (FS.File EmptyString (mtime_at W n)) f) ;;; raise e
  end.

(** [open(p).read()] in text mode. *)
Definition read_file (p : string) : M string :=
  f <- get_fs ;;
  c <- get_cwd ;;
  bytes <- lift (FS.read_bytes f c p) ;;
  emit (ERead p) ;;;
  text <- lift (decode W bytes) ;;
  ret (PyStr.universal_newlines text).

Definition os_stat (p : string) : M FS.node :=
  f <- get_fs ;;
  c <- get_cwd ;;
  lift (FS.stat f c p).

(** What [filecmp.cmp] answers from the two [os.stat] results, with its
    default [shallow=True]: two regular files of the same size and
    modification time are taken to be equal without being read; otherwise
    files of different sizes differ and files of the same size are
    compared byte by byte. *)
Definition cmp_verdict (s1 s2 : FS.node) : bool :=
  match s1, s2 with
  | FS.File c1 t1, FS.File c2 t2 =>
      if (String.length c1 =? String.length c2)%nat && (t1 =? t2)%Z then true
      else if negb (String.length c1 =? String.length c2)%nat then false
      else (c1 =? c2)%string
  | _, _ => false
  end.

(** [filecmp.cmp(f1, f2)].  (The table in which [filecmp] remembers
    earlier answers is not modelled: each call compares afresh.) *)
Definition filecmp_cmp (f1 f2 : string) : M bool :=
  s1 <- os_stat f1 ;;
  s2 <- os_stat f2 ;;
  let verdict := cmp_verdict s1 s2 in
  emit (ECmp f1 f2 verdict) ;;;
  ret verdict.

Definition shutil_rmtree (p : string) : M unit :=
  fun st =>
    let (r, f') := FS.rmtree (fs st) (cwd st) p in
    match r with
    | Ok _ =>
        (Ok tt, mkState f' (cwd st) (ticks st) (doc_dirs st) (ERmtree p :: trace st))
    | Raise e =>
        (Raise e, mkState f' (cwd st) (ticks st) (doc_dirs st) (trace st))
    end.

(** ** The script *)

Definition build_dir : string := "temp".
Definition report_dir : string := "report".
Definition doc_dirs_default : list string := ["Graph"].

Definition docs := (list string * list string * list string)%type.

(** The inner loop of [get_generated_docs]: one topic directory. *)
Fixpoint docs_of_dir (doc_dir : string) (tmp : list string) (acc : docs) : docs :=
  match tmp with
  | [] => acc
  | file_ :: rest =>
      let '(ref_files, mod_files, classes) := acc in
      docs_of_dir doc_dir rest
        (ref_files ++ [doc_dir +++ "/" +++ file_],
         mod_files ++ [build_dir +++ "/" +++ doc_dir +++ "/" +++ file_],
         classes ++ ["netket." +++ PyStr.lower doc_dir +++ "."
                       +++ PyStr.first (PyStr.split "." file_)])
  end.

(** The outer loop of [get_generated_docs]. *)
Fixpoint docs_of_dirs (dirs : list string) (acc : docs) : M docs :=
  match dirs with
  | [] => ret acc
  | doc_dir :: rest =>
      tmp <- os_listdir doc_dir ;;
      docs_of_dirs rest (docs_of_dir doc_dir tmp acc)
  end.

Definition get_generated_docs : M docs :=
  dirs <- get_doc_dirs ;;
  docs_of_dirs dirs ([], [], []).

Definition init_dir (new_dir : string) : M unit :=
  b <- os_path_isdir new_dir ;;
  if negb b then os_mkdir new_dir else ret tt.

Definition build (class_name output_name : string) (verbose : Z) : M unit :=
  (if negb (verbose =? 0)%Z
   then print ("Building documentation for: " +++ class_name)
   else ret tt) ;;;
  class_obj <- lift (py_eval W class_name) ;;
  let markdown := format_class W class_obj in
  write_file output_name markdown.

(** The path of the report without its [.html]. *)
Definition report_out_file (report_dir class_name : string) : string :=
  report_dir +++ "/"
    +++ PyStr.join "/" (tl (PyStr.split "/" (PyStr.replace "." "/" class_name))).

Definition make_report (ref_file mod_file class_name report_dir : string)
    (verbose : Z) : M bool :=
  is_consistent <- filecmp_cmp ref_file mod_file ;;
  (if negb is_consistent then
     init_dir report_dir ;;;
     fromtext <- read_file ref_file ;;
     let fromlines := PyStr.split "010" fromtext in
     totext <- read_file mod_file ;;
     let tolines := PyStr.split "010" totext in
     let html := make_file W fromlines tolines in
     let out_file := report_out_file report_dir class_name in
     let out_dir := PyStr.dirname out_file in
     print ("Mismatch found in: " +++ class_name) ;;;
     init_dir out_dir ;;;
     write_file (out_file +++ ".html") html ;;;
     (if negb (verbose =? 0)%Z
      then print ("Report written to: " +++ out_file +++ ".html")
      else ret tt)
   else ret tt) ;;;
  ret is_consistent.

Fixpoint init_subdirs (build_dir : string) (doc_dirs : list string) : M unit :=
  match doc_dirs with
  | [] => ret tt
  | doc_dir :: rest =>
      init_dir (build_dir +++ "/" +++ doc_dir) ;;;
      init_subdirs build_dir rest
  end.

Definition init_docs (build_dir : string) (doc_dirs : list string) : M unit :=
  init_dir build_dir ;;;
  init_subdirs build_dir doc_dirs.

(** [zip] of three lists: as long as the shortest. *)
Fixpoint zip3 (a b c : list string) : list (string * string * string) :=
  match a, b, c with
  | x :: a', y :: b', z :: c' => (x, y, z) :: zip3 a' b' c'
  | _, _, _ => []
  end.

(** The loop of [run] over the zipped descriptors. *)
Fixpoint run_loop (items : list (string * string * string)) (report_dir : string)
    (err : bool) : M bool :=
  match items with
  | [] => ret err
  | (ref_file, mod_file, class_name) :: rest =>
      build class_name mod_file 1 ;;;
      is_consistent <- make_report ref_file mod_file class_name report_dir 1 ;;
      run_loop rest report_dir (if negb is_consistent then true else err)
  end.

(** [run] up to the cleanup: preparation, discovery and the loop. *)
Definition run_checks (build_dir : string) (doc_dirs : list string)
    (report_dir : string) : M bool :=
  init_docs build_dir doc_dirs ;;;
  d <- get_generated_docs ;;
  let '(ref_files, mod_files, classes) := d in
  run_loop (zip3 ref_files mod_files classes) report_dir false.

Definition run (build_dir : string) (doc_dirs : list string)
    (report_dir : string) : M bool :=
  err <- run_checks build_dir doc_dirs report_dir ;;
  shutil_rmtree build_dir ;;;
  ret err.

(** [sys.exit(v)] of a boolean, and the status after an exception that
    nothing caught: the code of a [SystemExit], 1 for any other. *)
Definition exit_status (r : result bool) : Z :=
  match r with
  | Ok false => 0
  | Ok true => 1
  | Raise (SystemExit code) => code
  | Raise _ => 1
  end.

(** The topic directories after the module has looked at [sys.argv]. *)
Definition cli_doc_dirs (argv : list string) : list string :=
  if (1 <? List.length argv)%nat then skipn 1 argv else doc_dirs_default.

(** The module body from the assignment of [doc_dirs] on. *)
Definition script (argv : list string) : M bool :=
  set_doc_dirs doc_dirs_default ;;;
  (if (1 <? List.length argv)%nat then set_doc_dirs (skipn 1 argv) else ret tt) ;;;
  dirs <- get_doc_dirs ;;
  run build_dir dirs report_dir.

Definition main (argv : list string) (st : state) : Z * state :=
  let (r, st') := script argv st in (exit_status r, st').

End Runtime.

(** ** Vocabulary of the properties *)

(** The part of a file name before its first dot: its name without the
    extension. *)
Fixpoint name_before_dot (s : string) : string :=
  match s with
  | EmptyString => EmptyString
  | String c rest =>
      if Ascii.eqb c "." then EmptyString else String c (name_before_dot rest)
  end.

(** The three descriptors of the entry [file_] of the topic directory
    [doc_dir], as the specification words them. *)
Definition spec_ref_path (e : string * string) : string :=
  fst e +++ "/" +++ snd e.

Definition spec_scratch_path (e : string * string) : string :=
  build_dir +++ "/" +++ fst e +++ "/" +++ snd e.

Definition spec_class_id (e : string * string) : string :=
  "netket." +++ PyStr.lower (fst e) +++ "." +++ name_before_dot (snd e).

(** Every entry of every topic directory, in order, each with its
    directory; the error of the first directory that cannot be listed. *)
Fixpoint listing (f : FS.t) (c : FS.path) (dirs : list string)
    : result (list (string * string)) :=
  match dirs with
  | [] => Ok []
  | d :: rest =>
      match FS.listdir f c d with
      | Ok names =>
          match listing f c rest with
          | Ok es => Ok (map (pair d) names ++ es)
          | Raise e => Raise e
          end
      | Raise e => Raise e
      end
  end.

(** The report path as the specification words it: drop the first segment
    of the dotted identifier, join the others as path components under
    the report root, append [.html]. *)
Definition spec_report_path (report_dir class_name : string) : string :=
  report_dir +++ "/" +++ PyStr.join "/" (tl (PyStr.split "." class_name)) +++ ".html".

Fixpoint has_char (a : ascii) (s : string) : bool :=
  match s with
  | EmptyString => false
  | String c rest => Ascii.eqb c a || has_char a rest
  end.

(** The comparisons of a stretch of trace, oldest first. *)
Definition comparisons (evs : list event) : list (string * string * bool) :=
  rev (flat_map (fun e => match e with
                          | ECmp a b v => [(a, b, v)]
                          | _ => []
                          end) evs).

(** The paths opened for writing in a stretch of trace, oldest first. *)
Definition writes_of (evs : list event) : list string :=
  rev (flat_map (fun e => match e with EWrite p => [p] | _ => [] end) evs).

Definition is_mkdir (e : event) : Prop :=
  match e with EMkdir _ => True | _ => False end.

(** A file is there, regular, with these bytes and this time. *)
Definition file_at (st : state) (p content : string) (mtime : Z) : Prop :=
  FS.stat (fs st) (cwd st) p = Ok (FS.File content mtime).

(** Nothing is there: the lookup ends in "no such file or directory". *)
Definition missing (st : state) (p : string) : Prop :=
  FS.stat (fs st) (cwd st) p = Raise FileNotFoundError.

(** Directories stay directories from [f] to [f']. *)
Definition dirs_le (f f' : FS.t) : Prop :=
  forall q, FS.lookup f q = Some FS.Dir -> FS.lookup f' q = Some FS.Dir.

(** All that is in [f] is in [f'], unchanged. *)
Definition sub (f f' : FS.t) : Prop :=
  forall q n, FS.lookup f q = Some n -> FS.lookup f' q = Some n.

(** A computation that, however it ends, leaves the working directory and
    the global [doc_dirs] alone, removes no directory, and adds to the
    trace only events that satisfy [P]. *)
Definition respects {A} (P : event -> Prop) (m : M A) : Prop :=
  forall st r st', m st = (r, st') ->
    cwd st' = cwd st /\ doc_dirs st' = doc_dirs st /\
    dirs_le (fs st) (fs st') /\
    exists evs, trace st' = evs ++ trace st /\ Forall P evs.

(** The file events [P] has to accept for the loop to handle a document. *)
Definition item_allowed (P : event -> Prop) (rd : string)
    (item : string * string * string) : Prop :=
  let '(r, m, c) := item in
  P (ERead r) /\ P (ERead m) /\ (forall v, P (ECmp r m v)) /\
  P (EWrite m) /\ P (EWrite (report_out_file rd c +++ ".html")).

Definition not_cmp (e : event) : Prop :=
  match e with ECmp _ _ _ => False | _ => True end.

(** The directories the preparation of the scratch tree may make. *)
Definition scratch_mkdir (bd : string) (dirs : list string) (e : event) : Prop :=
  match e with
  | EMkdir p => p = bd \/ exists d, In d dirs /\ p = bd +++ "/" +++ d
  | _ => False
  end.

(** The comparison the loop owes to each descriptor. *)
Definition cmp_keys (items : list (string * string * string)) : list (string * string) :=
  map (fun item => (fst (fst item), snd (fst item))) items.

Definition some_inconsistent (cs : list (string * string * bool)) : bool :=
  existsb (fun x => negb (snd x)) cs.

(** What the run may do with files, given the entries it discovered:
    write a scratch file or a report, read a reference or a scratch file,
    compare a reference with its scratch file. *)
Definition file_event_ok (rd : string) (es : list (string * string)) (ev : event) : Prop :=
  match ev with
  | EWrite p =>
      exists e, In e es /\
        (p = spec_scratch_path e \/ p = spec_report_path rd (spec_class_id e))
  | ERead p =>
      exists e, In e es /\ (p = spec_ref_path e \/ p = spec_scratch_path e)
  | ECmp a b _ =>
      exists e, In e es /\ a = spec_ref_path e /\ b = spec_scratch_path e
  | _ => True
  end.

(** The entries a run discovers: those listed once the scratch tree is
    prepared; none when the preparation or the listing fails. *)
Definition discovered (dirs : list string) (st : state) : list (string * string) :=
  match init_docs build_dir dirs st with
  | (Ok _, st1) =>
      match listing (fs st1) (cwd st1) (doc_dirs st1) with
      | Ok es => es
      | Raise _ => []
      end
  | (Raise _, _) => []
  end.

(** The descriptor of an entry: reference path, scratch path, class. *)
Definition descriptor (e : string * string) : string * string * string :=
  (spec_ref_path e, spec_scratch_path e, spec_class_id e).

(** Nothing that is in [f] is gone in [f']. *)
Definition keeps (f f' : FS.t) : Prop :=
  forall q, FS.lookup f q <> None -> FS.lookup f' q <> None.

(** A computation whose disk, however it ends, is related by [R] to the
    disk it started from. *)
Definition preserves {A} (R : FS.t -> FS.t -> Prop) (m : M A) : Prop :=
  forall st r st', m st = (r, st') -> R (fs st) (fs st').

(** The references of the entries [es] hold, byte for byte, what the
    builder produces for them, their scratch files can be opened, and no
    scratch file lies where a reference does. *)
Definition docs_up_to_date (W : world) (es : list (string * string)) (s : state) : Prop :=
  forall e, In e es ->
    exists ob bytes t r q,
      py_eval W (spec_class_id e) = Ok ob /\
      encode W (format_class W ob) = Ok bytes /\
      FS.resolve (fs s) (cwd s) (spec_ref_path e) = Ok r /\
      FS.lookup (fs s) r = Some (FS.File bytes t) /\
      FS.create (fs s) (cwd s) (spec_scratch_path e) = Ok q /\
      (forall e' r', In e' es ->
         FS.resolve (fs s) (cwd s) (spec_ref_path e') = Ok r' -> r' <> q).

Definition not_rmtree (e : event) : Prop :=
  match e with ERmtree _ => False | _ => True end.

(** A name of one directory level: not empty, no slash, no dot. *)
Definition plain_name (x : string) : bool :=
  negb (x =? "")%string && negb (has_char "/" x) && negb (has_char "." x).

(** An exception that ends the process with a status of its own. *)
Definition exits (e : exn) : bool :=
  match e with SystemExit _ => true | _ => false end.

(** No collaborator ends the process: what [eval] and the codec raise are
    ordinary exceptions. *)
Definition no_exit (W : world) : Prop :=
  (forall s e, py_eval W s = Raise e -> exits e = false) /\
  (forall s e, encode W s = Raise e -> exits e = false) /\
  (forall s e, decode W s = Raise e -> exits e = false).

(** A computation that raises ordinary exceptions only. *)
Definition never_exits {A} (m : M A) : Prop :=
  forall st e st', m st = (Raise e, st') -> exits e = false.

(** ** Tests on a small disk *)

Module Demo.

(** A collaborator that knows the class [Hypercube] only. *)
Definition W : world :=
  mkWorld string
    (fun s => if (s =? "netket.graph.Hypercube")%string then Ok s
              else Raise AttributeError)
    (fun o => "# " +++ o)
    (fun a b => "<html>" +++ PyStr.join "|" a +++ "~" +++ PyStr.join "|" b +++ "</html>")
    (fun s => Ok s)
    (fun s => Ok s)
    (fun n => 100%Z).

Definition disk : FS.t :=
  [ ([], FS.Dir);
    (["w"], FS.Dir);
    (["w"; "Graph"], FS.Dir);
    (["w"; "Graph"; "Hypercube.md"], FS.File "# old" 5%Z) ].

Definition start : state := mkState disk ["w"] 0 [] [].

(** The reference of [Hypercube] is out of date, but it is as long as
    what the builder writes and carries the time the builder's file will
    get. *)
Definition stale_disk : FS.t :=
  [ ([], FS.Dir);
    (["w"], FS.Dir);
    (["w"; "Graph"], FS.Dir);
    (["w"; "Graph"; "Hypercube.md"], FS.File "# netket.graph.hypercube" 100%Z) ].

Definition stale : state := mkState stale_disk ["w"] 0 [] [].

(** A reference and a candidate that differ, side by side. *)
Definition pair_disk : FS.t :=
  [ ([], FS.Dir);
    (["w"], FS.Dir);
    (["w"; "ref.md"], FS.File "# Foo" 5%Z);
    (["w"; "new.md"], FS.File "# Foo (updated)" 7%Z) ].

Definition pair_state : state := mkState pair_disk ["w"] 0 [] [].

(** A reference and a candidate with the same bytes. *)
Definition twin_disk : FS.t :=
  [ ([], FS.Dir);
    (["w"], FS.Dir);
    (["w"; "ref.md"], FS.File "# Foo" 5%Z);
    (["w"; "new.md"], FS.File "# Foo" 9%Z) ].

Definition twin_state : state := mkState twin_disk ["w"] 0 [] [].

(** An empty topic directory one level down. *)
Definition nested_disk : FS.t :=
  [ ([], FS.Dir);
    (["w"], FS.Dir);
    (["w"; "Docs"], FS.Dir);
    (["w"; "Docs"; "Graph"], FS.Dir) ].

Definition nested : state := mkState nested_disk ["w"] 0 [] [].

(** An empty topic directory at the top. *)
Definition empty_disk : FS.t :=
  [ ([], FS.Dir);
    (["w"], FS.Dir);
    (["w"; "Graph"], FS.Dir) ].

Definition empty : state := mkState empty_disk ["w"] 0 [] [].

(** A report tree that is itself given as a topic directory. *)
Definition report_disk : FS.t :=
  [ ([], FS.Dir);
    (["w"], FS.Dir);
    (["w"; "Graph"], FS.Dir);
    (["w"; "Graph"; "Hypercube.md"], FS.File "# old" 5%Z);
    (["w"; "report"], FS.Dir);
    (["w"; "report"; "graph"], FS.Dir);
    (["w"; "report"; "graph"; "Hypercube.html"], FS.File "<p>kept</p>" 3%Z) ].

Definition report_state : state := mkState report_disk ["w"] 0 [] [].

Definition report_argv : list string :=
  ["doc_diff.py"; "Graph"; "report"; "report/graph"].

(** Two references that hold what the builder writes for them.  The
    collaborator [W2] knows both classes. *)
Definition W2 : world :=
  mkWorld string
    (fun s => if (s =? "netket.graph.Hypercube")%string
                 || (s =? "netket.graph.CustomGraph")%string
              then Ok s else Raise AttributeError)
    (fun o => "# " +++ o)
    (fun a b => "<html>" +++ PyStr.join "|" a +++ "~" +++ PyStr.join "|" b +++ "</html>")
    (fun s => Ok s)
    (fun s => Ok s)
    (fun n => Z.of_nat n + 100)%Z.

Definition fresh_disk : FS.t :=
  [ ([], FS.Dir);
    (["w"], FS.Dir);
    (["w"; "Graph"], FS.Dir);
    (["w"; "Graph"; "Hypercube.md"], FS.File "# netket.graph.Hypercube" 5%Z);
    (["w"; "Graph"; "CustomGraph.md"], FS.File "# netket.graph.CustomGraph" 6%Z) ].

Definition fresh : state := mkState fresh_disk ["w"] 0 [] [].

(** An entry whose name, read as an expression, ends the process: the
    class is there, so [eval] goes on to call [exit()]. *)
Definition W3 : world :=
  mkWorld string
    (fun s => if (s =? "netket.graph.Hypercube")%string then Ok s
              else if (s =? "netket.graph.Hypercube and exit()")%string
                   then Raise (SystemExit 0)
                   else Raise AttributeError)
    (fun o => "# " +++ o)
    (fun a b => "<html>" +++ PyStr.join "|" a +++ "~" +++ PyStr.join "|" b +++ "</html>")
    (fun s => Ok s)
    (fun s => Ok s)
    (fun n => 100%Z).

Definition exit_disk : FS.t :=
  [ ([], FS.Dir);
    (["w"], FS.Dir);
    (["w"; "Graph"], FS.Dir);
    (["w"; "Graph"; "Hypercube and exit().md"], FS.File "# old" 5%Z) ].

Definition exit_state : state := mkState exit_disk ["w"] 0 [] [].

(** A topic directory with a subdirectory in it, and a scratch root whose
    name is taken by a regular file. *)
Definition sub_disk : FS.t :=
  [ ([], FS.Dir);
    (["w"], FS.Dir);
    (["w"; "Graph"], FS.Dir);
    (["w"; "Graph"; "old"], FS.Dir);
    (["w"; "new.md"], FS.File "# Foo" 9%Z);
    (["w"; "note"], FS.File "keep me" 1%Z) ].

Definition sub_state : state := mkState sub_disk ["w"] 0 [] [].

End Demo.

(** * Properties *)

(** ** Strings *)

Lemma append_assoc (a b c : string) : (a +++ b) +++ c = a +++ b +++ c.
Proof. induction a as [|x a IH]; simpl; [reflexivity|]. now rewrite IH. Qed.

Lemma prefix_append (a b : string) : String.prefix a (a +++ b) = true.
Proof.
  induction a as [|x a IH]; simpl.
  - now destruct b.
  - destruct (ascii_dec x x); [exact IH|congruence].
Qed.

Lemma split_not_nil (a : ascii) (s : string) : PyStr.split a s <> [].
Proof.
  destruct s as [|c r]; simpl; [discriminate|].
  destruct (Ascii.eqb c a); [discriminate|].
  destruct (PyStr.split a r); discriminate.
Qed.

Lemma first_split_dot (s : string) :
  PyStr.first (PyStr.split "." s) = name_before_dot s.
Proof.
  induction s as [|c r IH]; simpl; [reflexivity|].
  destruct (Ascii.eqb c "."); [reflexivity|].
  unfold PyStr.first in IH.
  destruct (PyStr.split "." r) as [|w ws] eqn:E.
  - exfalso. exact (split_not_nil _ _ E).
  - simpl in *. now rewrite IH.
Qed.

Lemma join_cons (sep x : string) (l : list string) :
  l <> [] -> PyStr.join sep (x :: l) = x +++ sep +++ PyStr.join sep l.
Proof. destruct l; [congruence|reflexivity]. Qed.

Lemma join_split (a : ascii) (s : string) :
  PyStr.join (String a EmptyString) (PyStr.split a s) = s.
Proof.
  induction s as [|c r IH]; [reflexivity|].
  simpl PyStr.split. destruct (Ascii.eqb_spec c a) as [->|Hne].
  - rewrite join_cons by apply split_not_nil. now rewrite IH.
  - destruct (PyStr.split a r) as [|w ws] eqn:E.
    + exfalso. exact (split_not_nil _ _ E).
    + destruct ws as [|w' ws'].
      * simpl in *. now rewrite IH.
      * rewrite join_cons in IH by discriminate.
        rewrite join_cons by discriminate.
        cbn [String.append]. f_equal. exact IH.
Qed.

Lemma join_split_replace (a b : ascii) (s : string) :
  PyStr.join (String b EmptyString) (PyStr.split a s) = PyStr.replace a b s.
Proof.
  induction s as [|c r IH]; [reflexivity|].
  simpl PyStr.split. simpl PyStr.replace. destruct (Ascii.eqb c a).
  - rewrite join_cons by apply split_not_nil. now rewrite IH.
  - destruct (PyStr.split a r) as [|w ws] eqn:E.
    + exfalso. exact (split_not_nil _ _ E).
    + destruct ws as [|w' ws'].
      * simpl in *. now rewrite IH.
      * rewrite join_cons in IH by discriminate.
        rewrite join_cons by discriminate.
        cbn [String.append]. f_equal. exact IH.
Qed.

(** The path the code computes is the one the specification words, as
    long as the first segment of the identifier has no slash in it. *)
Lemma report_path_as_specified (report_dir class_name : string) :
  has_char "/" (name_before_dot class_name) = false ->
  report_out_file report_dir class_name +++ ".html"
  = spec_report_path report_dir class_name.
Proof.
  intros H. unfold report_out_file, spec_report_path.
  assert (E : PyStr.join "/" (tl (PyStr.split "/" (PyStr.replace "." "/" class_name)))
              = PyStr.join "/" (tl (PyStr.split "." class_name))).
  { induction class_name as [|c r IH]; [reflexivity|].
    simpl in H. simpl PyStr.replace. simpl PyStr.split.
    destruct (Ascii.eqb_spec c ".") as [->|Hdot].
    - simpl. rewrite join_split. now rewrite join_split_replace.
    - simpl in H. apply orb_false_elim in H. destruct H as [Hc Hr].
      rewrite Hc.
      destruct (PyStr.split "/" (PyStr.replace "." "/" r)) as [|w ws] eqn:E1;
        [exfalso; exact (split_not_nil _ _ E1)|].
      destruct (PyStr.split "." r) as [|v vs] eqn:E2;
        [exfalso; exact (split_not_nil _ _ E2)|].
      simpl in *. now apply IH. }
  rewrite E. now rewrite !append_assoc.
Qed.

(** ** The file tree *)

Lemma lookup_set (p : FS.path) (n : FS.node) (f : FS.t) (q : FS.path) :
  FS.lookup (FS.set p n f) q
  = if FS.path_eq_dec p q then Some n else FS.lookup f q.
Proof.
  induction f as [|[k m] f IH]; simpl.
  - destruct (FS.path_eq_dec p q); reflexivity.
  - destruct (FS.path_eq_dec k p) as [->|Hkp]; simpl.
    + destruct (FS.path_eq_dec p q); reflexivity.
    + rewrite IH. destruct (FS.path_eq_dec k q) as [->|Hkq];
        destruct (FS.path_eq_dec p q); congruence.
Qed.

Lemma lookup_remove_tree (q : FS.path) (f : FS.t) (p : FS.path) :
  FS.lookup (FS.remove_tree q f) p
  = if FS.is_prefix q p then None else FS.lookup f p.
Proof.
  unfold FS.remove_tree.
  induction f as [|[k m] f IH]; simpl.
  - now destruct (FS.is_prefix q p).
  - destruct (FS.is_prefix q k) eqn:Hk; simpl.
    + rewrite IH. destruct (FS.path_eq_dec k p) as [->|Hkp]; [|reflexivity].
      now rewrite Hk.
    + rewrite IH. destruct (FS.path_eq_dec k p) as [->|Hkp]; [|reflexivity].
      now rewrite Hk.
Qed.

Lemma is_prefix_refl (q : FS.path) : FS.is_prefix q q = true.
Proof.
  induction q as [|a q IH]; simpl; [reflexivity|].
  now rewrite String.eqb_refl.
Qed.

Lemma is_prefix_longer (q r : FS.path) : r <> [] -> FS.is_prefix (q ++ r) q = false.
Proof.
  intros Hr. induction q as [|a q IH]; simpl.
  - destruct r; [congruence|reflexivity].
  - rewrite IH. apply andb_false_r.
Qed.

Lemma sub_refl (f : FS.t) : sub f f.
Proof. intros q n H; exact H. Qed.

Lemma sub_dirs_le (f f' : FS.t) : sub f f' -> dirs_le f f'.
Proof. intros H q Hq. apply H, Hq. Qed.

Lemma dirs_le_refl (f : FS.t) : dirs_le f f.
Proof. intros q H; exact H. Qed.

Lemma dirs_le_trans (f g h : FS.t) : dirs_le f g -> dirs_le g h -> dirs_le f h.
Proof. intros H1 H2 q H. apply H2, H1, H. Qed.

Lemma sub_set_new (f : FS.t) (q : FS.path) (n : FS.node) :
  FS.lookup f q = None -> sub f (FS.set q n f).
Proof.
  intros Hq p m Hp. rewrite lookup_set.
  destruct (FS.path_eq_dec q p) as [->|]; congruence.
Qed.

Lemma dirs_le_set_file (f : FS.t) (q : FS.path) (n : FS.node) :
  FS.lookup f q <> Some FS.Dir -> dirs_le f (FS.set q n f).
Proof.
  intros Hq p Hp. rewrite lookup_set.
  destruct (FS.path_eq_dec q p) as [->|]; congruence.
Qed.

Lemma walk_mono (f f' : FS.t) (comps : list string) :
  dirs_le f f' ->
  forall cur q, FS.walk f cur comps = Ok q -> FS.walk f' cur comps = Ok q.
Proof.
  intros Hle. induction comps as [|c rest IH]; intros cur q H; simpl in *.
  - exact H.
  - destruct (c =? "")%string; [now apply IH|].
    destruct (FS.lookup f cur) as [[|]|] eqn:E; try discriminate.
    rewrite (Hle _ E). now apply IH.
Qed.

Lemma resolve_mono (f f' : FS.t) (c : FS.path) (p : string) (q : FS.path) :
  dirs_le f f' -> FS.resolve f c p = Ok q -> FS.resolve f' c p = Ok q.
Proof.
  intros Hle. unfold FS.resolve. destruct p; [discriminate|].
  now apply walk_mono.
Qed.

Lemma isdir_mono (f f' : FS.t) (c : FS.path) (p : string) :
  dirs_le f f' -> FS.isdir f c p = true -> FS.isdir f' c p = true.
Proof.
  intros Hle. unfold FS.isdir, FS.is_dir.
  destruct (FS.resolve f c p) as [q|] eqn:E; [|discriminate].
  rewrite (resolve_mono _ _ _ _ _ Hle E).
  destruct (FS.lookup f q) as [[|]|] eqn:L; try discriminate.
  now rewrite (Hle _ L).
Qed.

Lemma stat_sub (f f' : FS.t) (c : FS.path) (p : string) (n : FS.node) :
  sub f f' -> FS.stat f c p = Ok n -> FS.stat f' c p = Ok n.
Proof.
  intros Hs. unfold FS.stat.
  destruct (FS.resolve f c p) as [q|] eqn:E; [|discriminate].
  rewrite (resolve_mono _ _ _ _ _ (sub_dirs_le _ _ Hs) E).
  destruct (FS.lookup f q) eqn:L; [|discriminate].
  now rewrite (Hs _ _ L).
Qed.

Lemma read_bytes_stat (f : FS.t) (c : FS.path) (p bytes : string) (t : Z) :
  FS.stat f c p = Ok (FS.File bytes t) -> FS.read_bytes f c p = Ok bytes.
Proof.
  unfold FS.stat, FS.read_bytes.
  destruct (FS.resolve f c p) as [q|]; [|discriminate].
  destruct (FS.lookup f q) as [[|]|]; congruence.
Qed.

Lemma mkdir_sub (f f' : FS.t) (c : FS.path) (p : string) :
  FS.mkdir f c p = Ok f' -> sub f f' /\ FS.isdir f' c p = true.
Proof.
  unfold FS.mkdir.
  destruct (FS.resolve f c p) as [q|] eqn:E; [|discriminate].
  destruct (FS.lookup f q) eqn:L; [discriminate|].
  destruct (FS.is_dir f (removelast q)); [|discriminate].
  intros H; injection H as <-.
  pose proof (sub_set_new f q FS.Dir L) as Hs. split; [exact Hs|].
  unfold FS.isdir. rewrite (resolve_mono _ _ _ _ _ (sub_dirs_le _ _ Hs) E).
  unfold FS.is_dir. rewrite lookup_set.
  now destruct (FS.path_eq_dec q q).
Qed.

Lemma ensure_dir_sub (f f' : FS.t) (c : FS.path) (p : string) :
  FS.ensure_dir f c p = Ok f' -> sub f f' /\ FS.isdir f' c p = true.
Proof.
  unfold FS.ensure_dir. destruct (FS.isdir f c p) eqn:E.
  - intros H; injection H as <-. split; [apply sub_refl|exact E].
  - apply mkdir_sub.
Qed.

Lemma create_not_dir (f : FS.t) (c : FS.path) (p : string) (q : FS.path) :
  FS.create f c p = Ok q -> FS.lookup f q <> Some FS.Dir.
Proof.
  unfold FS.create.
  destruct (FS.resolve f c p) as [q0|]; [|discriminate].
  destruct (FS.lookup f q0) as [[|]|] eqn:L; try discriminate;
    destruct (FS.is_dir f (removelast q0)); try discriminate;
    intros H; injection H as <-; congruence.
Qed.

(** ** Computations *)

Ltac unfold_m :=
  unfold bind, ret, raise, lift, get_fs, get_cwd, get_doc_dirs, set_fs,
    set_doc_dirs, emit, tick, print in *; simpl in *.

Ltac inv_pair H := injection H; clear H; intros; subst.


Lemma respects_pure {A} (P : event -> Prop) (m : M A) :
  (forall st, snd (m st) = st) -> respects P m.
Proof.
  intros Hm st r st' H. specialize (Hm st). rewrite H in Hm. simpl in Hm. subst st'.
  repeat split; try reflexivity. - apply dirs_le_refl. - exists []. now split.
Qed.

Lemma respects_ret {A} (P : event -> Prop) (a : A) : respects P (ret a).
Proof. now apply respects_pure. Qed.

Lemma respects_lift {A} (P : event -> Prop) (r : result A) : respects P (lift r).
Proof. now apply respects_pure. Qed.

Lemma respects_emit (P : event -> Prop) (e : event) : P e -> respects P (emit e).
Proof.
  intros He st r st' H. unfold emit in H. inv_pair H. simpl.
  repeat split; try reflexivity. - apply dirs_le_refl.
  - exists [e]. split; [reflexivity|]. now constructor.
Qed.

Lemma respects_bind {A B} (P : event -> Prop) (m : M A) (k : A -> M B) :
  respects P m -> (forall a, respects P (k a)) -> respects P (bind m k).
Proof.
  intros Hm Hk st r st' H. unfold bind in H.
  destruct (m st) as [[a|e] st1] eqn:E.
  - destruct (Hm _ _ _ E) as (Hc & Hd & Hle & evs & Ht & Hf).
    destruct (Hk a _ _ _ H) as (Hc' & Hd' & Hle' & evs' & Ht' & Hf').
    repeat split; try congruence.
    + eapply dirs_le_trans; eassumption.
    + exists (evs' ++ evs). split.
      * rewrite Ht', Ht. apply app_assoc.
      * apply Forall_app. now split.
  - inv_pair H. exact (Hm _ _ _ E).
Qed.

Section Primitives.

Context (W : world) (P : event -> Prop).

Lemma respects_isdir (p : string) : respects P (os_path_isdir p).
Proof. now apply respects_pure. Qed.

Lemma respects_listdir (p : string) : respects P (os_listdir p).
Proof.
  apply respects_pure. intros st. unfold os_listdir. unfold_m.
  now destruct (FS.listdir (fs st) (cwd st) p).
Qed.

Lemma respects_stat (p : string) : respects P (os_stat p).
Proof.
  apply respects_pure. intros st. unfold os_stat. unfold_m.
  now destruct (FS.stat (fs st) (cwd st) p).
Qed.

Lemma respects_mkdir (p : string) : P (EMkdir p) -> respects P (os_mkdir p).
Proof.
  intros HP st r st' H. unfold os_mkdir in H. unfold_m.
  destruct (FS.mkdir (fs st) (cwd st) p) as [f'|e] eqn:E; inv_pair H; simpl.
  - repeat split; try reflexivity.
    + apply sub_dirs_le. exact (proj1 (mkdir_sub _ _ _ _ E)).
    + exists [EMkdir p]. split; [reflexivity|]. now constructor.
  - repeat split; try reflexivity. + apply dirs_le_refl. + exists []. now split.
Qed.

Lemma respects_write (p text : string) : P (EWrite p) -> respects P (write_file W p text).
Proof.
  intros HP st r st' H. unfold write_file in H. unfold_m.
  destruct (FS.create (fs st) (cwd st) p) as [q|e] eqn:E; simpl in H.
  - pose proof (create_not_dir _ _ _ _ E) as Hq.
    destruct (encode W text) as [bytes|e]; simpl in H; inv_pair H; simpl;
      (repeat split; try reflexivity;
       [ now apply dirs_le_set_file
       | exists [EWrite p]; split; [reflexivity|now constructor] ]).
  - inv_pair H. repeat split; try reflexivity.
    + apply dirs_le_refl. + exists []. now split.
Qed.

Lemma respects_read (p : string) : P (ERead p) -> respects P (read_file W p).
Proof.
  intros HP st r st' H. unfold read_file in H. unfold_m.
  destruct (FS.read_bytes (fs st) (cwd st) p) as [bytes|e]; simpl in H.
  - destruct (decode W bytes); simpl in H; inv_pair H; simpl;
      (repeat split; try reflexivity;
       [ apply dirs_le_refl
       | exists [ERead p]; split; [reflexivity|now constructor] ]).
  - inv_pair H. repeat split; try reflexivity.
    + apply dirs_le_refl. + exists []. now split.
Qed.

Lemma respects_cmp (f1 f2 : string) :
  (forall v, P (ECmp f1 f2 v)) -> respects P (filecmp_cmp f1 f2).
Proof.
  intros HP. unfold filecmp_cmp.
  apply respects_bind; [apply respects_stat|intros s1].
  apply respects_bind; [apply respects_stat|intros s2].
  apply respects_bind; [now apply respects_emit|intros _].
  apply respects_ret.
Qed.

Lemma respects_print (line : string) : P (EPrint line) -> respects P (print line).
Proof. apply respects_emit. Qed.

Lemma respects_init_dir (p : string) : P (EMkdir p) -> respects P (init_dir p).
Proof.
  intros HP. unfold init_dir.
  apply respects_bind; [apply respects_isdir|intros b].
  destruct (negb b); [now apply respects_mkdir|apply respects_ret].
Qed.

Lemma respects_init_subdirs (bd : string) (dirs : list string) :
  (forall d, In d dirs -> P (EMkdir (bd +++ "/" +++ d))) ->
  respects P (init_subdirs bd dirs).
Proof.
  induction dirs as [|d rest IH]; intros HP; simpl; [apply respects_ret|].
  apply respects_bind.
  - apply respects_init_dir, HP. now left.
  - intros _. apply IH. intros d' Hd'. apply HP. now right.
Qed.

Lemma respects_init_docs (bd : string) (dirs : list string) :
  P (EMkdir bd) ->
  (forall d, In d dirs -> P (EMkdir (bd +++ "/" +++ d))) ->
  respects P (init_docs bd dirs).
Proof.
  intros HP1 HP2. unfold init_docs.
  apply respects_bind; [now apply respects_init_dir|intros _].
  now apply respects_init_subdirs.
Qed.

Lemma respects_build (class_name output_name : string) (verbose : Z) :
  (forall s, P (EPrint s)) -> P (EWrite output_name) ->
  respects P (build W class_name output_name verbose).
Proof.
  intros HPp HPw. unfold build.
  apply respects_bind.
  - destruct (negb (verbose =? 0)%Z); [now apply respects_print|apply respects_ret].
  - intros _. apply respects_bind; [apply respects_lift|intros o].
    now apply respects_write.
Qed.

Lemma respects_make_report (r m c rd : string) (verbose : Z) :
  (forall s, P (EPrint s)) -> (forall p, P (EMkdir p)) ->
  P (ERead r) -> P (ERead m) -> (forall v, P (ECmp r m v)) ->
  P (EWrite (report_out_file rd c +++ ".html")) ->
  respects P (make_report W r m c rd verbose).
Proof.
  intros HPp HPm HPr1 HPr2 HPc HPw. unfold make_report.
  apply respects_bind; [now apply respects_cmp|intros v].
  apply respects_bind; [|intros _; apply respects_ret].
  destruct (negb v); [|apply respects_ret].
  apply respects_bind; [now apply respects_init_dir|intros _].
  apply respects_bind; [now apply respects_read|intros t1].
  apply respects_bind; [now apply respects_read|intros t2].
  apply respects_bind; [now apply respects_print|intros _].
  apply respects_bind; [now apply respects_init_dir|intros _].
  apply respects_bind; [now apply respects_write|intros _].
  destruct (negb (verbose =? 0)%Z); [now apply respects_print|apply respects_ret].
Qed.

Lemma respects_run_loop (items : list (string * string * string)) (rd : string) :
  (forall s, P (EPrint s)) -> (forall p, P (EMkdir p)) ->
  Forall (item_allowed P rd) items ->
  forall err, respects P (run_loop W items rd err).
Proof.
  intros HPp HPm Hitems.
  induction Hitems as [|[[r m] c] rest Hit _ IH]; intros err; simpl.
  - apply respects_ret.
  - destruct Hit as (H1 & H2 & H3 & H4 & H5).
    apply respects_bind; [now apply respects_build|intros _].
    apply respects_bind; [now apply respects_make_report|intros v].
    apply IH.
Qed.

End Primitives.

(** ** The locator *)

Section Locator.

Lemma docs_of_dir_maps (d : string) (names : list string) :
  forall a b c,
    docs_of_dir d names (a, b, c)
    = (a ++ map spec_ref_path (map (pair d) names),
       b ++ map spec_scratch_path (map (pair d) names),
       c ++ map spec_class_id (map (pair d) names)).
Proof.
  induction names as [|f rest IH]; intros a b c; simpl.
  - now rewrite !app_nil_r.
  - rewrite IH, <- !app_assoc. simpl.
    unfold spec_class_id at 2. simpl. now rewrite first_split_dot.
Qed.

Lemma docs_of_dirs_maps (dirs : list string) :
  forall a b c st,
    docs_of_dirs dirs (a, b, c) st
    = (match listing (fs st) (cwd st) dirs with
       | Ok es => Ok (a ++ map spec_ref_path es,
                      b ++ map spec_scratch_path es,
                      c ++ map spec_class_id es)
       | Raise e => Raise e
       end, st).
Proof.
  induction dirs as [|d rest IH]; intros a b c st; simpl.
  - unfold ret. now rewrite !app_nil_r.
  - unfold os_listdir. unfold_m.
    destruct (FS.listdir (fs st) (cwd st) d) as [names|e]; simpl; [|reflexivity].
    rewrite docs_of_dir_maps, IH.
    destruct (listing (fs st) (cwd st) rest) as [es|e]; [|reflexivity].
    now rewrite !map_app, !app_assoc.
Qed.

Lemma get_generated_docs_maps (st : state) :
  get_generated_docs st
  = (match listing (fs st) (cwd st) (doc_dirs st) with
     | Ok es => Ok (map spec_ref_path es, map spec_scratch_path es,
                    map spec_class_id es)
     | Raise e => Raise e
     end, st).
Proof.
  unfold get_generated_docs. unfold_m. now rewrite docs_of_dirs_maps.
Qed.

Lemma listing_in (f : FS.t) (c : FS.path) (dirs : list string) :
  forall es, listing f c dirs = Ok es ->
  forall d n, In (d, n) es <->
    In d dirs /\ exists names, FS.listdir f c d = Ok names /\ In n names.
Proof.
  induction dirs as [|d0 rest IH]; intros es H d n; simpl in H.
  - inv_pair H. simpl. tauto.
  - destruct (FS.listdir f c d0) as [names0|] eqn:E0; [|discriminate].
    destruct (listing f c rest) as [es'|] eqn:E1; [|discriminate].
    inv_pair H. rewrite in_app_iff, in_map_iff, (IH _ eq_refl). simpl. split.
    + intros [(x & Hx & Hin)|(Hd & names & Hn & Hin)].
      * inv_pair Hx. split; [now left|]. now exists names0.
      * split; [now right|]. now exists names.
    + intros ([->|Hd] & names & Hn & Hin).
      * left. exists n. split; [reflexivity|]. congruence.
      * right. split; [exact Hd|]. now exists names.
Qed.

Lemma listing_raise (f : FS.t) (c : FS.path) (dirs : list string) (e : exn) :
  listing f c dirs = Raise e -> exists d, In d dirs /\ FS.listdir f c d = Raise e.
Proof.
  induction dirs as [|d0 rest IH]; simpl; [discriminate|].
  destruct (FS.listdir f c d0) as [names0|e0] eqn:E0.
  - destruct (listing f c rest) as [es'|e1]; [discriminate|].
    intros H. inv_pair H. destruct (IH eq_refl) as (d & Hd & Hl).
    exists d. split; [now right|exact Hl].
  - intros H. inv_pair H. exists d0. split; [now left|exact E0].
Qed.


End Locator.

Lemma script_run (W : world) (argv : list string) (st : state) :
  script W argv st
  = run W build_dir (cli_doc_dirs argv) report_dir
      (with_doc_dirs (cli_doc_dirs argv) st).
Proof.
  unfold script, cli_doc_dirs, with_doc_dirs. unfold_m.
  destruct (1 <? length argv)%nat; reflexivity.
Qed.

(** C9.  The topic directories are the command-line arguments after the
    program name, in their order, when there is at least one, and the
    single built-in directory [Graph] when there is none; they are what
    the orchestrator receives and what the locator reads. *)
Theorem cli_topic_directories (W : world) (prog a : string) (rest : list string)
    (st : state) :
  cli_doc_dirs (prog :: a :: rest) = a :: rest /\
  cli_doc_dirs [prog] = ["Graph"] /\
  script W (prog :: a :: rest) st
  = run W build_dir (a :: rest) report_dir (with_doc_dirs (a :: rest) st) /\
  script W [prog] st
  = run W build_dir ["Graph"] report_dir (with_doc_dirs ["Graph"] st).
Proof.
  repeat split; try reflexivity; now rewrite script_run.
Qed.

(** C3.  The locator returns three sequences of one length, built in
    lockstep from the entries of the topic directories taken in order:
    the entry [f] of the directory [d] gives, at one index, the reference
    path [d/f], the scratch path [temp/d/f] and the identifier
    [netket.] + [d] in lower case + [.] + the name of [f] before its first
    dot.  Every listed entry of every topic directory is there, and
    nothing else is.  The locator changes nothing; when a directory
    cannot be listed it raises the error of that listing. *)
Theorem locator_lockstep (st : state) :
  match get_generated_docs st with
  | (Ok (refs, mods, classes), st') =>
      st' = st /\
      (exists es,
          listing (fs st) (cwd st) (doc_dirs st) = Ok es /\
          refs = map spec_ref_path es /\
          mods = map spec_scratch_path es /\
          classes = map spec_class_id es) /\
      length refs = length mods /\
      length mods = length classes /\
      (forall i r, nth_error refs i = Some r ->
         exists d f names,
           In d (doc_dirs st) /\
           FS.listdir (fs st) (cwd st) d = Ok names /\ In f names /\
           r = spec_ref_path (d, f) /\
           nth_error mods i = Some (spec_scratch_path (d, f)) /\
           nth_error classes i = Some (spec_class_id (d, f))) /\
      (forall d f names,
         In d (doc_dirs st) ->
         FS.listdir (fs st) (cwd st) d = Ok names -> In f names ->
         exists i,
           nth_error refs i = Some (spec_ref_path (d, f)) /\
           nth_error mods i = Some (spec_scratch_path (d, f)) /\
           nth_error classes i = Some (spec_class_id (d, f)))
  | (Raise e, st') =>
      st' = st /\
      exists d, In d (doc_dirs st) /\ FS.listdir (fs st) (cwd st) d = Raise e
  end.
Proof.
  rewrite get_generated_docs_maps.
  destruct (listing (fs st) (cwd st) (doc_dirs st)) as [es|e] eqn:E.
  - split; [reflexivity|]. split; [now exists es|].
    rewrite !length_map. split; [reflexivity|]. split; [reflexivity|]. split.
    + intros i r Hi. rewrite nth_error_map in Hi.
      destruct (nth_error es i) as [[d f]|] eqn:Ei; [|discriminate].
      simpl in Hi. inv_pair Hi.
      apply nth_error_In in Ei as Hin.
      apply (listing_in _ _ _ _ E) in Hin. destruct Hin as (Hd & names & Hl & Hf).
      exists d, f, names. rewrite !nth_error_map, Ei. simpl. tauto.
    + intros d f names Hd Hl Hf.
      assert (Hin : In (d, f) es).
      { apply (listing_in _ _ _ _ E). split; [exact Hd|]. now exists names. }
      apply In_nth_error in Hin. destruct Hin as (i & Hi).
      exists i. rewrite !nth_error_map, Hi. simpl. tauto.
  - split; [reflexivity|]. now apply listing_raise.
Qed.

Lemma locator_lockstep_witness :
  exists i,
    nth_error ["Graph/Hypercube.md"] i = Some "Graph/Hypercube.md" /\
    nth_error ["temp/Graph/Hypercube.md"] i = Some "temp/Graph/Hypercube.md" /\
    nth_error ["netket.graph.Hypercube"] i = Some "netket.graph.Hypercube".
Proof.
  pose proof (locator_lockstep (with_doc_dirs ["Graph"] Demo.start)) as H.
  change (get_generated_docs (with_doc_dirs ["Graph"] Demo.start))
    with (Ok (["Graph/Hypercube.md"], ["temp/Graph/Hypercube.md"],
              ["netket.graph.Hypercube"]),
          with_doc_dirs ["Graph"] Demo.start) in H.
  cbv beta iota in H.
  destruct H as (_ & _ & _ & _ & _ & H).
  apply (H "Graph" "Hypercube.md" ["Hypercube.md"]).
  - simpl. now left.
  - reflexivity.
  - simpl. now left.
Defined.

(** ** The comparator *)

Section Comparator.

Context (W : world).

Lemma filecmp_cmp_ok (f1 f2 : string) (s1 s2 : FS.node) (st : state) :
  FS.stat (fs st) (cwd st) f1 = Ok s1 ->
  FS.stat (fs st) (cwd st) f2 = Ok s2 ->
  filecmp_cmp f1 f2 st
  = (Ok (cmp_verdict s1 s2), with_event (ECmp f1 f2 (cmp_verdict s1 s2)) st).
Proof.
  intros H1 H2. unfold filecmp_cmp, os_stat. unfold_m.
  now rewrite H1, H2.
Qed.

Lemma cmp_verdict_same (c : string) (t1 t2 : Z) :
  cmp_verdict (FS.File c t1) (FS.File c t2) = true.
Proof.
  unfold cmp_verdict. rewrite Nat.eqb_refl. simpl.
  destruct (t1 =? t2)%Z; [reflexivity|]. apply String.eqb_refl.
Qed.

Lemma cmp_verdict_differ (c1 c2 : string) (t1 t2 : Z) :
  c1 <> c2 -> String.length c1 <> String.length c2 \/ t1 <> t2 ->
  cmp_verdict (FS.File c1 t1) (FS.File c2 t2) = false.
Proof.
  intros Hc Hs. unfold cmp_verdict.
  destruct (Nat.eqb_spec (String.length c1) (String.length c2)) as [Hl|Hl]; simpl.
  - destruct (Z.eqb_spec t1 t2) as [Ht|Ht]; [tauto|].
    now apply String.eqb_neq.
  - reflexivity.
Qed.

(** The default comparison does not read two files of one size and one
    modification time. *)
Lemma cmp_verdict_shallow (c1 c2 : string) (t : Z) :
  String.length c1 = String.length c2 ->
  cmp_verdict (FS.File c1 t) (FS.File c2 t) = true.
Proof.
  intros Hl. unfold cmp_verdict. now rewrite Hl, Nat.eqb_refl, Z.eqb_refl.
Qed.

Lemma make_report_equal_signature (ref_file mod_file class_name rd : string)
    (verbose : Z) (c1 c2 : string) (t : Z) (st : state) :
  file_at st ref_file c1 t ->
  file_at st mod_file c2 t ->
  String.length c1 = String.length c2 ->
  make_report W ref_file mod_file class_name rd verbose st
  = (Ok true, with_event (ECmp ref_file mod_file true) st).
Proof.
  intros H1 H2 Hl. unfold file_at in *. unfold make_report, bind at 1.
  rewrite (filecmp_cmp_ok _ _ _ _ _ H1 H2), (cmp_verdict_shallow _ _ _ Hl).
  reflexivity.
Qed.

Lemma init_dir_ok (p : string) (f' : FS.t) (st : state) :
  FS.ensure_dir (fs st) (cwd st) p = Ok f' ->
  exists evs,
    init_dir p st
    = (Ok tt, mkState f' (cwd st) (ticks st) (doc_dirs st) (evs ++ trace st)) /\
    Forall is_mkdir evs.
Proof.
  unfold FS.ensure_dir, init_dir, os_path_isdir, os_mkdir. unfold_m.
  destruct (FS.isdir (fs st) (cwd st) p); simpl; intros H.
  - inv_pair H. exists []. split; [now destruct st|constructor].
  - rewrite H. simpl. exists [EMkdir p]. split; [reflexivity|].
    constructor; [exact I|constructor].
Qed.

Lemma read_file_ok (p bytes text : string) (st : state) :
  FS.read_bytes (fs st) (cwd st) p = Ok bytes ->
  decode W bytes = Ok text ->
  read_file W p st = (Ok (PyStr.universal_newlines text), with_event (ERead p) st).
Proof.
  intros H1 H2. unfold read_file. unfold_m. rewrite H1. simpl. now rewrite H2.
Qed.

Lemma write_file_ok (p text bytes : string) (q : FS.path) (st : state) :
  FS.create (fs st) (cwd st) p = Ok q ->
  encode W text = Ok bytes ->
  write_file W p text st
  = (Ok tt,
     mkState (FS.set q (FS.File bytes (mtime_at W (ticks st))) (fs st))
       (cwd st) (S (ticks st)) (doc_dirs st) (EWrite p :: trace st)).
Proof.
  intros H1 H2. unfold write_file. unfold_m. rewrite H1. simpl. now rewrite H2.
Qed.

Lemma writes_of_app (a b : list event) : writes_of (a ++ b) = writes_of b ++ writes_of a.
Proof. unfold writes_of. now rewrite flat_map_app, rev_app_distr. Qed.

Lemma writes_of_mkdirs (evs : list event) : Forall is_mkdir evs -> writes_of evs = [].
Proof.
  unfold writes_of. induction 1 as [|e evs He _ IH]; [reflexivity|].
  destruct e; try contradiction. simpl. exact IH.
Qed.

Lemma comparisons_app (a b : list event) :
  comparisons (a ++ b) = comparisons b ++ comparisons a.
Proof. unfold comparisons. now rewrite flat_map_app, rev_app_distr. Qed.

Lemma create_then_read (f : FS.t) (c : FS.path) (p bytes : string) (q : FS.path) (t : Z) :
  FS.create f c p = Ok q ->
  FS.read_bytes (FS.set q (FS.File bytes t) f) c p = Ok bytes.
Proof.
  intros H. pose proof (create_not_dir _ _ _ _ H) as Hq.
  assert (R : FS.resolve f c p = Ok q).
  { unfold FS.create in H. destruct (FS.resolve f c p) as [q0|]; [|discriminate].
    destruct (FS.lookup f q0) as [[|]|]; try discriminate;
      destruct (FS.is_dir f (removelast q0)); try discriminate; congruence. }
  unfold FS.read_bytes.
  rewrite (resolve_mono _ _ _ _ _ (dirs_le_set_file f q _ Hq) R), lookup_set.
  now destruct (FS.path_eq_dec q q).
Qed.

End Comparator.

(** C5.  When the reference and the candidate are regular files with the
    same bytes the comparator answers "consistent" and does nothing else:
    the disk is as it was, and the only thing the trace gains is the
    comparison itself, so no directory was made, no file written and no
    line printed. *)
Theorem comparator_identical (W : world) (st : state)
    (ref_file mod_file class_name rd : string) (verbose : Z)
    (content : string) (t1 t2 : Z) :
  file_at st ref_file content t1 ->
  file_at st mod_file content t2 ->
  exists st',
    make_report W ref_file mod_file class_name rd verbose st = (Ok true, st') /\
    fs st' = fs st /\ cwd st' = cwd st /\ ticks st' = ticks st /\
    trace st' = ECmp ref_file mod_file true :: trace st.
Proof.
  intros H1 H2. unfold file_at in *.
  exists (with_event (ECmp ref_file mod_file true) st).
  unfold make_report, bind at 1.
  rewrite (filecmp_cmp_ok _ _ _ _ _ H1 H2), cmp_verdict_same.
  simpl. repeat split; reflexivity.
Qed.

Lemma comparator_identical_witness :
  exists st',
    make_report Demo.W "ref.md" "new.md" "netket.Foo" "reports/" 1 Demo.twin_state
    = (Ok true, st') /\
    fs st' = fs Demo.twin_state /\ cwd st' = cwd Demo.twin_state /\
    ticks st' = ticks Demo.twin_state /\
    trace st' = ECmp "ref.md" "new.md" true :: trace Demo.twin_state.
Proof.
  apply (comparator_identical Demo.W Demo.twin_state _ _ _ _ _ "# Foo" 5%Z 9%Z);
    reflexivity.
Defined.

(** C4, as amended.  When the reference and the candidate are regular
    files whose bytes differ and whose size or modification time differs,
    both decode, the report root and the directory of the report exist or
    can each be made by one [mkdir], and the report file can be opened
    and encoded, the comparator answers "inconsistent" and writes exactly
    one file: the report, at the report root followed by the segments of
    the identifier after the first, joined as path components, followed
    by [.html].  It prints the notice of the mismatch. *)
Theorem comparator_differing (W : world) (st : state)
    (ref_file mod_file class_name rd : string) (verbose : Z)
    (c1 c2 x1 x2 bytes : string) (t1 t2 : Z) (f1 f2 : FS.t) (q : FS.path) :
  file_at st ref_file c1 t1 ->
  file_at st mod_file c2 t2 ->
  c1 <> c2 ->
  String.length c1 <> String.length c2 \/ t1 <> t2 ->
  decode W c1 = Ok x1 ->
  decode W c2 = Ok x2 ->
  has_char "/" (name_before_dot class_name) = false ->
  FS.ensure_dir (fs st) (cwd st) rd = Ok f1 ->
  FS.ensure_dir f1 (cwd st) (PyStr.dirname (report_out_file rd class_name)) = Ok f2 ->
  FS.create f2 (cwd st) (spec_report_path rd class_name) = Ok q ->
  encode W (make_file W (PyStr.split "010" (PyStr.universal_newlines x1))
                        (PyStr.split "010" (PyStr.universal_newlines x2))) = Ok bytes ->
  exists st' evs,
    make_report W ref_file mod_file class_name rd verbose st = (Ok false, st') /\
    trace st' = evs ++ trace st /\
    writes_of evs = [spec_report_path rd class_name] /\
    comparisons evs = [(ref_file, mod_file, false)] /\
    In (EPrint ("Mismatch found in: " +++ class_name)) evs /\
    fs st' = FS.set q (FS.File bytes (mtime_at W (ticks st))) f2 /\
    FS.read_bytes (fs st') (cwd st') (spec_report_path rd class_name) = Ok bytes.
Proof.
  intros H1 H2 Hc Hs Hd1 Hd2 Hseg He1 He2 Hcr Henc. unfold file_at in *.
  rewrite <- (report_path_as_specified rd class_name Hseg) in *.
  destruct (ensure_dir_sub _ _ _ _ He1) as [Hsub1 _].
  set (sa := with_event (ECmp ref_file mod_file false) st).
  destruct (init_dir_ok rd f1 sa He1) as (evs1 & Hi1 & Hm1).
  set (sb := mkState f1 (cwd sa) (ticks sa) (doc_dirs sa) (evs1 ++ trace sa)) in *.
  assert (Hr1 : read_file W ref_file sb
                = (Ok (PyStr.universal_newlines x1), with_event (ERead ref_file) sb)).
  { apply read_file_ok with (bytes := c1); [|exact Hd1].
    eapply read_bytes_stat, stat_sub; eassumption. }
  set (sc := with_event (ERead ref_file) sb) in *.
  assert (Hr2 : read_file W mod_file sc
                = (Ok (PyStr.universal_newlines x2), with_event (ERead mod_file) sc)).
  { apply read_file_ok with (bytes := c2); [|exact Hd2].
    eapply read_bytes_stat, stat_sub; eassumption. }
  set (sd := with_event (EPrint ("Mismatch found in: " +++ class_name))
               (with_event (ERead mod_file) sc)).
  destruct (init_dir_ok (PyStr.dirname (report_out_file rd class_name)) f2 sd He2)
    as (evs2 & Hi2 & Hm2).
  set (se := mkState f2 (cwd sd) (ticks sd) (doc_dirs sd) (evs2 ++ trace sd)) in *.
  pose proof (write_file_ok W (report_out_file rd class_name +++ ".html") _ bytes q se
                Hcr Henc) as Hw.
  set (sf := mkState (FS.set q (FS.File bytes (mtime_at W (ticks se))) (fs se))
               (cwd se) (S (ticks se)) (doc_dirs se)
               (EWrite (report_out_file rd class_name +++ ".html") :: trace se)) in *.
  set (tail_events :=
         if negb (verbose =? 0)%Z
         then [EPrint ("Report written to: " +++ report_out_file rd class_name +++ ".html")]
         else []).
  exists (mkState (fs sf) (cwd sf) (ticks sf) (doc_dirs sf) (tail_events ++ trace sf)).
  exists (tail_events
            ++ [EWrite (report_out_file rd class_name +++ ".html")]
            ++ evs2
            ++ [EPrint ("Mismatch found in: " +++ class_name);
                ERead mod_file; ERead ref_file]
            ++ evs1 ++ [ECmp ref_file mod_file false]).
  assert (Hnone : forall l, Forall is_mkdir l ->
            flat_map (fun e => match e with ECmp a b v => [(a, b, v)] | _ => [] end) l = []).
  { induction 1 as [|e l He _ IH]; [reflexivity|].
    destruct e; try contradiction. exact IH. }
  split; [|split; [|split; [|split; [|split; [|split]]]]].
  - unfold make_report, bind at 1.
    rewrite (filecmp_cmp_ok _ _ _ _ _ H1 H2), (cmp_verdict_differ _ _ _ _ Hc Hs).
    fold sa. cbn [negb]. unfold bind at 1. unfold bind at 1. rewrite Hi1.
    unfold bind at 1. rewrite Hr1. unfold bind at 1. rewrite Hr2.
    unfold bind at 1. unfold print, emit at 1. fold sd.
    change (with_event (EPrint ("Mismatch found in: " +++ class_name))
              (with_event (ERead mod_file) sc)) with sd.
    unfold bind at 1. rewrite Hi2. unfold bind at 1. rewrite Hw.
    unfold tail_events. destruct (negb (verbose =? 0)%Z); reflexivity.
  - simpl. repeat (rewrite <- app_assoc; simpl). reflexivity.
  - rewrite !writes_of_app, (writes_of_mkdirs _ Hm1), (writes_of_mkdirs _ Hm2).
    unfold tail_events. destruct (negb (verbose =? 0)%Z); reflexivity.
  - rewrite !comparisons_app. unfold comparisons at 1 2 3 4 5.
    rewrite (Hnone _ Hm1), (Hnone _ Hm2).
    unfold tail_events. destruct (negb (verbose =? 0)%Z); reflexivity.
  - apply in_or_app. right. apply in_or_app. right. apply in_or_app. right.
    simpl. now left.
  - reflexivity.
  - simpl. now apply create_then_read.
Qed.

Lemma comparator_differing_witness :
  exists st' evs,
    make_report Demo.W "ref.md" "new.md" "netket.Foo" "report" 1 Demo.pair_state
    = (Ok false, st') /\
    trace st' = evs ++ trace Demo.pair_state /\
    writes_of evs = ["report/Foo.html"] /\
    comparisons evs = [("ref.md", "new.md", false)] /\
    In (EPrint "Mismatch found in: netket.Foo") evs /\
    fs st' = FS.set ["w"; "report"; "Foo.html"]
               (FS.File "<html># Foo~# Foo (updated)</html>" 100)
               (Demo.pair_disk ++ [(["w"; "report"], FS.Dir)]) /\
    FS.read_bytes (fs st') (cwd st') "report/Foo.html"
    = Ok "<html># Foo~# Foo (updated)</html>".
Proof.
  apply (comparator_differing Demo.W Demo.pair_state "ref.md" "new.md" "netket.Foo"
           "report" 1 "# Foo" "# Foo (updated)" "# Foo" "# Foo (updated)"
           "<html># Foo~# Foo (updated)</html>" 5 7
           (Demo.pair_disk ++ [(["w"; "report"], FS.Dir)])
           (Demo.pair_disk ++ [(["w"; "report"], FS.Dir)])
           ["w"; "report"; "Foo.html"]);
    try reflexivity.
  - discriminate.
  - left. simpl. lia.
Defined.

(** C4, as stated, fails: the comparator makes the report root and one
    more directory, no deeper.  With an identifier of four segments and
    no report tree on the disk, two files that differ give an exception
    and no report. *)
Lemma comparator_differing_counterexample :
  file_at Demo.pair_state "ref.md" "# Foo" 5 /\
  file_at Demo.pair_state "new.md" "# Foo (updated)" 7 /\
  PyStr.split "010" "# Foo" <> PyStr.split "010" "# Foo (updated)" /\
  exists st',
    make_report Demo.W "ref.md" "new.md" "netket.graph.lattice.Foo" "report" 1
      Demo.pair_state = (Raise FileNotFoundError, st') /\
    writes_of (trace st') = [] /\
    FS.stat (fs st') (cwd st') "report/graph/lattice/Foo.html"
    = Raise FileNotFoundError.
Proof.
  split; [reflexivity|]. split; [reflexivity|]. split; [discriminate|].
  eexists. split; [vm_compute; reflexivity|]. split; reflexivity.
Qed.

(** C2, where the code departs from it: the reference differs from what
    the builder writes, in one letter, but has its size and carries the
    modification time the new file gets.  The comparison answers
    "consistent", no report is written and the script exits with 0. *)
Example stale_reference_passes :
  file_at Demo.stale "Graph/Hypercube.md" "# netket.graph.hypercube" 100 /\
  format_class Demo.W "netket.graph.Hypercube" = "# netket.graph.Hypercube" /\
  "# netket.graph.hypercube" <> "# netket.graph.Hypercube" /\
  exists st',
    main Demo.W ["doc_diff.py"] Demo.stale = (0%Z, st') /\
    comparisons (trace st')
    = [("Graph/Hypercube.md", "temp/Graph/Hypercube.md", true)] /\
    writes_of (trace st') = ["temp/Graph/Hypercube.md"].
Proof.
  split; [reflexivity|]. split; [reflexivity|]. split; [discriminate|].
  eexists. split; [vm_compute; reflexivity|]. split; reflexivity.
Qed.

(** ** The orchestrator *)

Lemma bind_ok_inv {A B} (m : M A) (k : A -> M B) (st st' : state) (b : B) :
  bind m k st = (Ok b, st') ->
  exists a st1, m st = (Ok a, st1) /\ k a st1 = (Ok b, st').
Proof.
  unfold bind. destruct (m st) as [[a|e] st1]; [|discriminate].
  intros H. now exists a, st1.
Qed.

Lemma comparisons_none (evs : list event) : Forall not_cmp evs -> comparisons evs = [].
Proof.
  unfold comparisons. induction 1 as [|e evs He _ IH]; [reflexivity|].
  destruct e; try contradiction; simpl; exact IH.
Qed.

Lemma mkdir_not_cmp (e : event) : is_mkdir e -> not_cmp e.
Proof. now destruct e. Qed.

Section Orchestrator.

Context (W : world).

Lemma build_step (c m : string) (v : Z) (st : state) (r : result unit) (st1 : state) :
  build W c m v st = (r, st1) ->
  exists evs, trace st1 = evs ++ trace st /\ comparisons evs = [].
Proof.
  intros H.
  assert (R : respects not_cmp (build W c m v)) by (now apply respects_build).
  destruct (R _ _ _ H) as (_ & _ & _ & evs & Ht & Hf).
  exists evs. split; [exact Ht|now apply comparisons_none].
Qed.

Lemma make_report_step (r m c rd : string) (v : Z) (st : state)
    (res : result bool) (st1 : state) :
  make_report W r m c rd v st = (res, st1) ->
  exists evs, trace st1 = evs ++ trace st /\
    match res with
    | Ok b => comparisons evs = [(r, m, b)]
    | Raise _ => comparisons evs = [] \/ comparisons evs = [(r, m, false)]
    end.
Proof.
  unfold make_report. intros H. unfold bind at 1 in H.
  destruct (filecmp_cmp r m st) as [[b|e] sa] eqn:Ec.
  - assert (Ha : trace sa = [ECmp r m b] ++ trace st).
    { unfold filecmp_cmp, os_stat in Ec. unfold_m.
      destruct (FS.stat (fs st) (cwd st) r); simpl in Ec; [|discriminate].
      destruct (FS.stat (fs st) (cwd st) m); simpl in Ec; [|discriminate].
      now inv_pair Ec. }
    destruct b; simpl in H.
    + unfold_m. inv_pair H. exists [ECmp r m true]. now split.
    + unfold bind at 1 in H.
      match type of H with
      | (let (_, _) := ?body sa in _) = _ =>
          assert (R : respects not_cmp body)
      end.
      { apply respects_bind; [now apply respects_init_dir|intros _].
        apply respects_bind; [now apply respects_read|intros t1].
        apply respects_bind; [now apply respects_read|intros t2].
        apply respects_bind; [now apply respects_print|intros _].
        apply respects_bind; [now apply respects_init_dir|intros _].
        apply respects_bind; [now apply respects_write|intros _].
        destruct (negb (v =? 0)%Z); [now apply respects_print|apply respects_ret]. }
      match type of H with
      | (let (_, _) := ?body sa in _) = _ =>
          destruct (body sa) as [[u|e] sb] eqn:Eb
      end.
      * unfold ret in H. inv_pair H.
        destruct (R _ _ _ Eb) as (_ & _ & _ & evs & Ht & Hf).
        exists (evs ++ [ECmp r m false]). split.
        -- rewrite Ht, Ha. now rewrite <- app_assoc.
        -- rewrite comparisons_app, (comparisons_none _ Hf). reflexivity.
      * inv_pair H.
        destruct (R _ _ _ Eb) as (_ & _ & _ & evs & Ht & Hf).
        exists (evs ++ [ECmp r m false]). split.
        -- rewrite Ht, Ha. now rewrite <- app_assoc.
        -- right. rewrite comparisons_app, (comparisons_none _ Hf). reflexivity.
  - assert (Ha : sa = st).
    { unfold filecmp_cmp, os_stat in Ec. unfold_m.
      destruct (FS.stat (fs st) (cwd st) r); simpl in Ec; [|now inv_pair Ec].
      destruct (FS.stat (fs st) (cwd st) m); simpl in Ec; [discriminate|].
      now inv_pair Ec. }
    inv_pair H. exists []. split; [reflexivity|]. now left.
Qed.

Lemma run_loop_record (items : list (string * string * string)) (rd : string) :
  forall err st res st',
    run_loop W items rd err st = (res, st') ->
    exists evs, trace st' = evs ++ trace st /\
      match res with
      | Ok b =>
          map fst (comparisons evs) = cmp_keys items /\
          b = err || some_inconsistent (comparisons evs)
      | Raise _ =>
          (length (comparisons evs) < length items)%nat \/
          some_inconsistent (comparisons evs) = true
      end.
Proof.
  induction items as [|[[r m] c] rest IH]; intros err st res st' H; simpl in H.
  - unfold ret in H. inv_pair H. exists []. split; [reflexivity|].
    split; [reflexivity|]. simpl. now rewrite orb_false_r.
  - unfold bind at 1 in H.
    destruct (build W c m 1 st) as [[u|e] s1] eqn:Eb.
    + destruct (build_step _ _ _ _ _ _ Eb) as (evs1 & Ht1 & Hc1).
      unfold bind at 1 in H.
      destruct (make_report W r m c rd 1 s1) as [[b|e] s2] eqn:Em.
      * destruct (make_report_step _ _ _ _ _ _ _ _ Em) as (evs2 & Ht2 & Hc2).
        destruct (IH _ _ _ _ H) as (evs3 & Ht3 & Hc3).
        exists (evs3 ++ evs2 ++ evs1). split.
        { rewrite Ht3, Ht2, Ht1. now rewrite <- !app_assoc. }
        rewrite !comparisons_app, Hc1, Hc2. simpl.
        destruct res as [b'|e'].
        -- destruct Hc3 as [Hk Hb]. split.
           ++ unfold cmp_keys in *. simpl. now rewrite Hk.
           ++ rewrite Hb. unfold some_inconsistent. simpl.
              destruct b; simpl; [reflexivity|]. now rewrite orb_true_r.
        -- destruct Hc3 as [Hl|Hs].
           ++ left. simpl. lia.
           ++ right. unfold some_inconsistent in *. simpl. rewrite Hs.
              apply orb_true_r.
      * inv_pair H.
        destruct (make_report_step _ _ _ _ _ _ _ _ Em) as (evs2 & Ht2 & Hc2).
        exists (evs2 ++ evs1). split.
        { rewrite Ht2, Ht1. now rewrite <- !app_assoc. }
        rewrite comparisons_app, Hc1. simpl.
        destruct Hc2 as [-> | ->]; [left; simpl; lia|right; reflexivity].
    + inv_pair H. destruct (build_step _ _ _ _ _ _ Eb) as (evs1 & Ht1 & Hc1).
      exists evs1. split; [exact Ht1|]. left. rewrite Hc1. simpl. lia.
Qed.

Lemma zip3_descriptors (es : list (string * string)) :
  zip3 (map spec_ref_path es) (map spec_scratch_path es) (map spec_class_id es)
  = map descriptor es.
Proof. induction es as [|e es IH]; simpl; [reflexivity|]. now rewrite IH. Qed.

Lemma run_checks_unfold (bd : string) (dirs : list string) (rd : string) (st : state) :
  run_checks W bd dirs rd st
  = match init_docs bd dirs st with
    | (Ok _, st1) =>
        match listing (fs st1) (cwd st1) (doc_dirs st1) with
        | Ok es => run_loop W (map descriptor es) rd false st1
        | Raise e => (Raise e, st1)
        end
    | (Raise e, st1) => (Raise e, st1)
    end.
Proof.
  unfold run_checks. unfold bind at 1.
  destruct (init_docs bd dirs st) as [[u|e] st1]; [|reflexivity].
  unfold bind at 1. rewrite get_generated_docs_maps.
  destruct (listing (fs st1) (cwd st1) (doc_dirs st1)) as [es|e]; [|reflexivity].
  now rewrite zip3_descriptors.
Qed.

Lemma items_allowed_any (rd : string) (items : list (string * string * string)) :
  Forall (item_allowed (fun _ => True) rd) items.
Proof.
  apply Forall_forall. intros [[r m] c] _. simpl. tauto.
Qed.

Lemma init_dir_isdir (p : string) (st st' : state) :
  init_dir p st = (Ok tt, st') ->
  FS.isdir (fs st') (cwd st') p = true.
Proof.
  unfold init_dir, os_path_isdir, os_mkdir. unfold_m.
  destruct (FS.isdir (fs st) (cwd st) p) eqn:E; simpl; intros H.
  - now inv_pair H.
  - destruct (FS.mkdir (fs st) (cwd st) p) as [f'|] eqn:Em; simpl in H;
      [|discriminate].
    inv_pair H. simpl. exact (proj2 (mkdir_sub _ _ _ _ Em)).
Qed.

Lemma init_docs_isdir (bd : string) (dirs : list string) (st st1 : state) :
  init_docs bd dirs st = (Ok tt, st1) ->
  FS.isdir (fs st1) (cwd st1) bd = true.
Proof.
  unfold init_docs. intros H.
  apply bind_ok_inv in H. destruct H as ([] & sa & Ha & Hb).
  apply init_dir_isdir in Ha.
  assert (R : respects (fun _ => True) (init_subdirs bd dirs))
    by (now apply respects_init_subdirs).
  destruct (R _ _ _ Hb) as (Hc & _ & Hle & _).
  rewrite Hc. eapply isdir_mono; eassumption.
Qed.

Lemma run_checks_isdir (bd : string) (dirs : list string) (rd : string)
    (st st1 : state) (err : bool) :
  run_checks W bd dirs rd st = (Ok err, st1) ->
  FS.isdir (fs st1) (cwd st1) bd = true /\ cwd st1 = cwd st.
Proof.
  rewrite run_checks_unfold.
  destruct (init_docs bd dirs st) as [[[]|e] sa] eqn:Ei; [|discriminate].
  pose proof (init_docs_isdir _ _ _ _ Ei) as Hd.
  assert (Ri : respects (fun _ => True) (init_docs bd dirs))
    by (now apply respects_init_docs).
  destruct (Ri _ _ _ Ei) as (Hca & _ & _ & _).
  destruct (listing (fs sa) (cwd sa) (doc_dirs sa)) as [es|e]; [|discriminate].
  intros H.
  assert (R : respects (fun _ => True) (run_loop W (map descriptor es) rd false)).
  { apply respects_run_loop; try easy. apply items_allowed_any. }
  destruct (R _ _ _ H) as (Hc & _ & Hle & _).
  split; [|congruence]. rewrite Hc. eapply isdir_mono; eassumption.
Qed.

Lemma rmtree_build_dir (f : FS.t) (c : FS.path) :
  FS.isdir f c build_dir = true ->
  FS.rmtree f c build_dir = (Ok tt, FS.remove_tree (c ++ ["temp"]) f) /\
  FS.lookup f c = Some FS.Dir.
Proof.
  unfold FS.isdir, FS.rmtree, FS.resolve, FS.is_dir, build_dir. simpl.
  destruct (FS.lookup f c) as [[|]|] eqn:Lc; try discriminate.
  unfold FS.step. simpl.
  destruct (FS.lookup f (c ++ ["temp"])) as [[|]|] eqn:Lq; try discriminate.
  intros _. split; [|reflexivity].
  destruct (c ++ ["temp"]) eqn:E; [now destruct c|]. reflexivity.
Qed.

Lemma missing_after_rmtree (f : FS.t) (c : FS.path) :
  FS.lookup f c = Some FS.Dir ->
  FS.stat (FS.remove_tree (c ++ ["temp"]) f) c build_dir = Raise FileNotFoundError.
Proof.
  intros Lc. unfold FS.stat, FS.resolve, build_dir. simpl.
  rewrite lookup_remove_tree, is_prefix_longer by discriminate. rewrite Lc.
  unfold FS.step. simpl.
  now rewrite lookup_remove_tree, is_prefix_refl.
Qed.

End Orchestrator.

Section Run.

Context (W : world).

(** The state after the cleanup of the scratch root [temp]. *)
Lemma run_outcome (dirs : list string) (rd : string) (st : state) :
  run W build_dir dirs rd st
  = match run_checks W build_dir dirs rd st with
    | (Ok err, st1) =>
        (Ok err,
         mkState (FS.remove_tree (cwd st ++ [build_dir]) (fs st1)) (cwd st1)
           (ticks st1) (doc_dirs st1) (ERmtree build_dir :: trace st1))
    | (Raise e, st1) => (Raise e, st1)
    end.
Proof.
  unfold run, bind at 1.
  destruct (run_checks W build_dir dirs rd st) as [[err|e] st1] eqn:E; [|reflexivity].
  destruct (run_checks_isdir _ _ _ _ _ _ _ E) as [Hd Hc].
  destruct (rmtree_build_dir _ _ Hd) as [Hr _].
  unfold bind, shutil_rmtree. rewrite Hr, Hc. reflexivity.
Qed.

Lemma all_true_record (l : list (string * string * bool)) (es : list (string * string)) :
  map fst l = map (fun e => (spec_ref_path e, spec_scratch_path e)) es ->
  some_inconsistent l = false ->
  l = map (fun e => (spec_ref_path e, spec_scratch_path e, true)) es.
Proof.
  revert es. induction l as [|[k v] l IH]; intros [|e es] Hk Hs; simpl in *;
    try discriminate; [reflexivity|].
  unfold some_inconsistent in *. simpl in Hs. apply orb_false_elim in Hs.
  destruct Hs as [Hv Hs]. destruct v; [|discriminate].
  injection Hk as Hk1 Hk2. subst k. f_equal. now apply IH.
Qed.

Lemma all_true_consistent (es : list (string * string)) :
  some_inconsistent (map (fun e => (spec_ref_path e, spec_scratch_path e, true)) es)
  = false.
Proof. unfold some_inconsistent. now induction es. Qed.

Lemma cmp_keys_descriptors (es : list (string * string)) :
  cmp_keys (map descriptor es)
  = map (fun e => (spec_ref_path e, spec_scratch_path e)) es.
Proof. unfold cmp_keys. now rewrite map_map. Qed.

End Run.

(** ** Exceptions that end the process *)

Lemma exit_status_raise (e : exn) : exits e = false -> exit_status (Raise e) = 1%Z.
Proof. destruct e; simpl; try reflexivity. discriminate. Qed.

Lemma walk_error (f : FS.t) (comps : list string) :
  forall cur e, FS.walk f cur comps = Raise e -> exits e = false.
Proof.
  induction comps as [|c rest IH]; intros cur e H; simpl in H; [discriminate|].
  destruct (c =? "")%string; [now apply (IH cur)|].
  destruct (FS.lookup f cur) as [[|]|].
  - injection H as <-. reflexivity.
  - now apply (IH (FS.step cur c)).
  - injection H as <-. reflexivity.
Qed.

Lemma resolve_error (f : FS.t) (c : FS.path) (p : string) (e : exn) :
  FS.resolve f c p = Raise e -> exits e = false.
Proof.
  unfold FS.resolve. destruct p; [intros H; injection H as <-; reflexivity|].
  apply walk_error.
Qed.

Lemma mkdir_error (f : FS.t) (c : FS.path) (p : string) (e : exn) :
  FS.mkdir f c p = Raise e -> exits e = false.
Proof.
  unfold FS.mkdir. destruct (FS.resolve f c p) as [q|e0] eqn:E.
  - destruct (FS.lookup f q); [intros H; injection H as <-; reflexivity|].
    destruct (FS.is_dir f (removelast q)); [discriminate|].
    intros H; injection H as <-; reflexivity.
  - intros H; injection H as <-. exact (resolve_error _ _ _ _ E).
Qed.

Lemma listdir_error (f : FS.t) (c : FS.path) (p : string) (e : exn) :
  FS.listdir f c p = Raise e -> exits e = false.
Proof.
  unfold FS.listdir. destruct (FS.resolve f c p) as [q|e0] eqn:E.
  - destruct (FS.lookup f q) as [[|]|]; intros H; try discriminate;
      injection H as <-; reflexivity.
  - intros H; injection H as <-. exact (resolve_error _ _ _ _ E).
Qed.

Lemma stat_error (f : FS.t) (c : FS.path) (p : string) (e : exn) :
  FS.stat f c p = Raise e -> exits e = false.
Proof.
  unfold FS.stat. destruct (FS.resolve f c p) as [q|e0] eqn:E.
  - destruct (FS.lookup f q); intros H; try discriminate;
      injection H as <-; reflexivity.
  - intros H; injection H as <-. exact (resolve_error _ _ _ _ E).
Qed.

Lemma create_error (f : FS.t) (c : FS.path) (p : string) (e : exn) :
  FS.create f c p = Raise e -> exits e = false.
Proof.
  unfold FS.create. destruct (FS.resolve f c p) as [q|e0] eqn:E.
  - destruct (FS.lookup f q) as [[|]|];
      try (intros H; injection H as <-; reflexivity);
      destruct (FS.is_dir f (removelast q)); intros H; try discriminate;
      injection H as <-; reflexivity.
  - intros H; injection H as <-. exact (resolve_error _ _ _ _ E).
Qed.

Lemma read_bytes_error (f : FS.t) (c : FS.path) (p : string) (e : exn) :
  FS.read_bytes f c p = Raise e -> exits e = false.
Proof.
  unfold FS.read_bytes. destruct (FS.resolve f c p) as [q|e0] eqn:E.
  - destruct (FS.lookup f q) as [[|]|]; intros H; try discriminate;
      injection H as <-; reflexivity.
  - intros H; injection H as <-. exact (resolve_error _ _ _ _ E).
Qed.

Lemma rmtree_error (f : FS.t) (c : FS.path) (p : string) (e : exn) (f' : FS.t) :
  FS.rmtree f c p = (Raise e, f') -> exits e = false.
Proof.
  unfold FS.rmtree. destruct (FS.resolve f c p) as [q|e0] eqn:E.
  - destruct (FS.lookup f q) as [[|]|];
      try (intros H; injection H as <- _; reflexivity).
    destruct (FS.rmdir_refused p q); intros H; [|discriminate].
    injection H as <- _. reflexivity.
  - intros H; injection H as <- _. exact (resolve_error _ _ _ _ E).
Qed.

Lemma never_exits_bind {A B} (m : M A) (k : A -> M B) :
  never_exits m -> (forall a, never_exits (k a)) -> never_exits (bind m k).
Proof.
  intros Hm Hk st e st' H. unfold bind in H.
  destruct (m st) as [[a|e0] s1] eqn:E.
  - exact (Hk a _ _ _ H).
  - injection H as <- _. exact (Hm _ _ _ E).
Qed.

Lemma never_exits_ok {A} (m : M A) :
  (forall st, is_ok (fst (m st)) = true) -> never_exits m.
Proof.
  intros Hm st e st' H. specialize (Hm st). rewrite H in Hm. discriminate.
Qed.

Lemma never_exits_lift {A} (r : result A) :
  (forall e, r = Raise e -> exits e = false) -> never_exits (lift r).
Proof. intros Hr st e st' H. unfold lift in H. injection H as H _. now apply Hr. Qed.

Lemma never_exits_init_dir (p : string) : never_exits (init_dir p).
Proof.
  intros st e st' H. unfold init_dir, os_path_isdir, os_mkdir in H. unfold_m.
  destruct (FS.isdir (fs st) (cwd st) p); simpl in H; [discriminate|].
  destruct (FS.mkdir (fs st) (cwd st) p) eqn:E; simpl in H; [discriminate|].
  injection H as <- _. exact (mkdir_error _ _ _ _ E).
Qed.

Lemma never_exits_init_docs (bd : string) (dirs : list string) :
  never_exits (init_docs bd dirs).
Proof.
  unfold init_docs. apply never_exits_bind; [apply never_exits_init_dir|intros _].
  induction dirs as [|d rest IH]; simpl; [now apply never_exits_ok|].
  apply never_exits_bind; [apply never_exits_init_dir|intros _; exact IH].
Qed.

Lemma listing_error (f : FS.t) (c : FS.path) (dirs : list string) (e : exn) :
  listing f c dirs = Raise e -> exits e = false.
Proof.
  intros H. destruct (listing_raise _ _ _ _ H) as (d & _ & Hl).
  exact (listdir_error _ _ _ _ Hl).
Qed.

Section NeverExits.

Context (W : world).
Hypothesis W_no_exit : no_exit W.

Lemma never_exits_write (p text : string) : never_exits (write_file W p text).
Proof.
  intros st e st' H. unfold write_file in H. unfold_m.
  destruct (FS.create (fs st) (cwd st) p) as [q|e0] eqn:E; simpl in H.
  - destruct (encode W text) as [b|e1] eqn:Ee; simpl in H; [discriminate|].
    injection H as <- _. exact (proj1 (proj2 W_no_exit) _ _ Ee).
  - injection H as <- _. exact (create_error _ _ _ _ E).
Qed.

Lemma never_exits_read (p : string) : never_exits (read_file W p).
Proof.
  intros st e st' H. unfold read_file in H. unfold_m.
  destruct (FS.read_bytes (fs st) (cwd st) p) as [b|e0] eqn:E; simpl in H.
  - destruct (decode W b) as [t|e1] eqn:Ed; simpl in H; [discriminate|].
    injection H as <- _. exact (proj2 (proj2 W_no_exit) _ _ Ed).
  - injection H as <- _. exact (read_bytes_error _ _ _ _ E).
Qed.

Lemma never_exits_cmp (f1 f2 : string) : never_exits (filecmp_cmp f1 f2).
Proof.
  intros st e st' H. unfold filecmp_cmp, os_stat in H. unfold_m.
  destruct (FS.stat (fs st) (cwd st) f1) as [s1|e1] eqn:E1; simpl in H.
  - destruct (FS.stat (fs st) (cwd st) f2) as [s2|e2] eqn:E2; simpl in H;
      [discriminate|].
    injection H as <- _. exact (stat_error _ _ _ _ E2).
  - injection H as <- _. exact (stat_error _ _ _ _ E1).
Qed.

Lemma never_exits_build (c o : string) (v : Z) : never_exits (build W c o v).
Proof.
  unfold build. apply never_exits_bind.
  - apply never_exits_ok. intros st. now destruct (negb (v =? 0)%Z).
  - intros _. apply never_exits_bind.
    + apply never_exits_lift. exact (proj1 W_no_exit c).
    + intros ob. apply never_exits_write.
Qed.

Lemma never_exits_make_report (r m c rd : string) (v : Z) :
  never_exits (make_report W r m c rd v).
Proof.
  unfold make_report. apply never_exits_bind; [apply never_exits_cmp|intros b].
  apply never_exits_bind; [|intros _; now apply never_exits_ok].
  destruct (negb b); [|now apply never_exits_ok].
  apply never_exits_bind; [apply never_exits_init_dir|intros _].
  apply never_exits_bind; [apply never_exits_read|intros t1].
  apply never_exits_bind; [apply never_exits_read|intros t2].
  apply never_exits_bind; [now apply never_exits_ok|intros _].
  apply never_exits_bind; [apply never_exits_init_dir|intros _].
  apply never_exits_bind; [apply never_exits_write|intros _].
  apply never_exits_ok. intros st. now destruct (negb (v =? 0)%Z).
Qed.

Lemma never_exits_run_loop (items : list (string * string * string)) (rd : string) :
  forall err, never_exits (run_loop W items rd err).
Proof.
  induction items as [|[[r m] c] rest IH]; intros err; simpl.
  - now apply never_exits_ok.
  - apply never_exits_bind; [apply never_exits_build|intros _].
    apply never_exits_bind; [apply never_exits_make_report|intros b]. apply IH.
Qed.

End NeverExits.

Lemma demo_no_exit : no_exit Demo.W.
Proof.
  repeat split; intros s e H; simpl in H; try discriminate.
  destruct (s =? "netket.graph.Hypercube")%string; [discriminate|].
  injection H as <-. reflexivity.
Qed.

(** C6.  When the preparation, the discovery and the loop of a run are
    through without an exception, the run removes the scratch root [temp]
    with all that lies below it and then returns the flag of the loop:
    after the run nothing exists at the scratch root. *)
Theorem cleanup_removes_scratch (W : world) (dirs : list string) (rd : string)
    (st st1 : state) (err : bool) :
  run_checks W build_dir dirs rd st = (Ok err, st1) ->
  exists st2,
    run W build_dir dirs rd st = (Ok err, st2) /\
    FS.resolve (fs st1) (cwd st1) build_dir = Ok (cwd st ++ [build_dir]) /\
    fs st2 = FS.remove_tree (cwd st ++ [build_dir]) (fs st1) /\
    trace st2 = ERmtree build_dir :: trace st1 /\
    (forall p, FS.is_prefix (cwd st ++ [build_dir]) p = true ->
               FS.lookup (fs st2) p = None) /\
    missing st2 build_dir /\
    FS.isdir (fs st2) (cwd st2) build_dir = false.
Proof.
  intros H. rewrite run_outcome, H. eexists. split; [reflexivity|].
  destruct (run_checks_isdir _ _ _ _ _ _ _ H) as [Hd Hc].
  destruct (rmtree_build_dir _ _ Hd) as [_ Lc]. rewrite Hc in Lc.
  pose proof (missing_after_rmtree (fs st1) (cwd st) Lc) as Hm.
  simpl. rewrite Hc. split; [|split; [reflexivity|split; [reflexivity|split; [|split]]]].
  - unfold FS.resolve, build_dir. simpl. now rewrite Lc.
  - intros p Hp. now rewrite lookup_remove_tree, Hp.
  - exact Hm.
  - unfold missing, FS.stat in Hm. unfold FS.isdir, FS.is_dir.
    change (FS.remove_tree (cwd st ++ [build_dir]) (fs st1))
      with (FS.remove_tree (cwd st ++ ["temp"]) (fs st1)).
    destruct (FS.resolve (FS.remove_tree (cwd st ++ ["temp"]) (fs st1)) (cwd st) build_dir)
      as [q|]; [|reflexivity].
    destruct (FS.lookup (FS.remove_tree (cwd st ++ ["temp"]) (fs st1)) q);
      [discriminate|reflexivity].
Qed.

Lemma cleanup_removes_scratch_witness :
  exists st2,
    run Demo.W build_dir ["Graph"] report_dir (with_doc_dirs ["Graph"] Demo.start)
    = (Ok true, st2) /\
    missing st2 build_dir.
Proof.
  edestruct (cleanup_removes_scratch Demo.W ["Graph"] report_dir
               (with_doc_dirs ["Graph"] Demo.start)) as (st2 & H1 & _ & _ & _ & _ & H2 & _).
  - vm_compute. reflexivity.
  - exists st2. split; [exact H1|exact H2].
Defined.




Lemma missing_listdir (st : state) (d : string) :
  missing st d -> FS.listdir (fs st) (cwd st) d = Raise FileNotFoundError.
Proof.
  unfold missing, FS.stat, FS.listdir.
  destruct (FS.resolve (fs st) (cwd st) d) as [q|e].
  - destruct (FS.lookup (fs st) q) as [[|]|]; intros H; try discriminate H.
    reflexivity.
  - intros H. injection H as ->. reflexivity.
Qed.

Lemma listing_ok_each (f : FS.t) (c : FS.path) (dirs : list string)
    (es : list (string * string)) (d : string) :
  listing f c dirs = Ok es -> In d dirs -> is_ok (FS.listdir f c d) = true.
Proof.
  revert es. induction dirs as [|d0 rest IH]; intros es H Hd; [contradiction|].
  simpl in H. destruct (FS.listdir f c d0) as [names0|] eqn:E0; [|discriminate].
  destruct (listing f c rest) as [es'|]; [|discriminate].
  destruct Hd as [<-|Hd]; [now rewrite E0|]. now apply (IH es').
Qed.

(** C7.  When a configured topic directory is not there at the time the
    locator lists it, that listing raises [FileNotFoundError]; the
    locator raises without returning descriptors, and what it raises is
    [FileNotFoundError] as long as no configured directory fails to list
    for another reason.  Nothing catches the exception: [run] ends with
    it, the exit status is not 0, and all the run has done is make
    scratch directories, so no document was built or compared. *)
Theorem missing_topic_directory_aborts (W : world) (bd : string)
    (dirs : list string) (rd : string) (st : state) (d : string) :
  In d (doc_dirs st) ->
  (forall st1, init_docs bd dirs st = (Ok tt, st1) -> missing st1 d) ->
  exists e st',
    run W bd dirs rd st = (Raise e, st') /\
    exit_status (Raise e) <> 0%Z /\
    (exists evs, trace st' = evs ++ trace st /\ Forall is_mkdir evs) /\
    (forall st1, init_docs bd dirs st = (Ok tt, st1) ->
       FS.listdir (fs st1) (cwd st1) d = Raise FileNotFoundError /\
       get_generated_docs st1 = (Raise e, st1) /\
       st' = st1 /\
       ((forall d', In d' (doc_dirs st) ->
                    is_ok (FS.listdir (fs st1) (cwd st1) d') = false ->
                    missing st1 d') ->
        e = FileNotFoundError)).
Proof.
  intros Hd Hmiss.
  assert (Ri : respects is_mkdir (init_docs bd dirs))
    by (apply respects_init_docs; simpl; auto).
  unfold run, bind at 1. rewrite run_checks_unfold.
  destruct (init_docs bd dirs st) as [[[]|e] sa] eqn:Ei.
  - destruct (Ri _ _ _ Ei) as (_ & Hdd & _ & evsA & HtA & HfA).
    specialize (Hmiss sa eq_refl). pose proof (missing_listdir _ _ Hmiss) as Hl.
    pose proof (get_generated_docs_maps sa) as Hg.
    destruct (listing (fs sa) (cwd sa) (doc_dirs sa)) as [es|e0] eqn:El.
    + exfalso. rewrite Hdd in El.
      pose proof (listing_ok_each _ _ _ _ _ El Hd) as Hok.
      rewrite Hl in Hok. discriminate.
    + exists e0, sa. split; [reflexivity|].
      split; [rewrite (exit_status_raise e0 (listing_error _ _ _ _ El)); discriminate|].
      split; [now exists evsA|].
      intros st1 H1. injection H1 as <-. repeat split; try assumption.
      intros Hall. rewrite Hdd in El.
      destruct (listing_raise _ _ _ _ El) as (d0 & Hd0 & Hl0).
      assert (Hm0 : missing sa d0) by (apply Hall; [exact Hd0|now rewrite Hl0]).
      apply missing_listdir in Hm0. congruence.
  - exists e, sa. split; [reflexivity|].
    split; [rewrite (exit_status_raise e (never_exits_init_docs _ _ _ _ _ Ei));
            discriminate|].
    destruct (Ri _ _ _ Ei) as (_ & _ & _ & evsA & HtA & HfA).
    split; [now exists evsA|]. intros st1 H1. discriminate.
Qed.

Lemma missing_topic_directory_aborts_witness :
  exists e st',
    run Demo.W build_dir ["Nope"] report_dir (with_doc_dirs ["Nope"] Demo.start)
    = (Raise e, st') /\
    exit_status (Raise e) <> 0%Z /\
    e = FileNotFoundError.
Proof.
  destruct (missing_topic_directory_aborts Demo.W build_dir ["Nope"] report_dir
              (with_doc_dirs ["Nope"] Demo.start) "Nope")
    as (e & st' & H1 & H2 & _ & H3).
  - simpl. now left.
  - intros st1 H. vm_compute in H. inv_pair H. reflexivity.
  - exists e, st'. split; [exact H1|]. split; [exact H2|].
    edestruct H3 as (_ & _ & _ & H4); [vm_compute; reflexivity|].
    apply H4. intros d' [<-|[]] _. reflexivity.
Defined.

Lemma listing_all_empty (f : FS.t) (c : FS.path) (dirs : list string) :
  (forall d, In d dirs -> FS.listdir f c d = Ok []) -> listing f c dirs = Ok [].
Proof.
  induction dirs as [|d rest IH]; intros H; simpl; [reflexivity|].
  rewrite (H d) by now left. rewrite IH; [reflexivity|].
  intros d' Hd'. apply H. now right.
Qed.

(** C8, as stated, fails: the scratch directory of a topic directory is
    made by one [mkdir].  For the empty topic directory [Docs/Graph] the
    preparation raises, the status is 1 and the scratch root stays. *)
Lemma empty_topics_counterexample :
  FS.listdir (fs Demo.nested) (cwd Demo.nested) "Docs/Graph" = Ok [] /\
  exists st',
    script Demo.W ["doc_diff.py"; "Docs/Graph"] Demo.nested
    = (Raise FileNotFoundError, st') /\
    main Demo.W ["doc_diff.py"; "Docs/Graph"] Demo.nested = (1%Z, st') /\
    FS.isdir (fs st') (cwd st') build_dir = true.
Proof.
  split; [reflexivity|]. eexists. split; [vm_compute; reflexivity|].
  split; reflexivity.
Qed.

(** C8, as amended.  When the scratch tree can be prepared and every
    configured topic directory then lists no entry, the run returns
    [False] and the script exits with 0; all the run does is make
    scratch directories and remove the scratch root, so no document is
    built or compared, the comparator makes no report directory and
    writes no report, and nothing is left at the scratch root. *)
Theorem empty_topics_run (W : world) (argv : list string) (st st1 : state) :
  init_docs build_dir (cli_doc_dirs argv) (with_doc_dirs (cli_doc_dirs argv) st)
  = (Ok tt, st1) ->
  (forall d, In d (cli_doc_dirs argv) -> FS.listdir (fs st1) (cwd st1) d = Ok []) ->
  exists st' evs,
    script W argv st = (Ok false, st') /\
    main W argv st = (0%Z, st') /\
    trace st1 = evs ++ trace st /\
    Forall (scratch_mkdir build_dir (cli_doc_dirs argv)) evs /\
    trace st' = ERmtree build_dir :: trace st1 /\
    fs st' = FS.remove_tree (cwd st ++ [build_dir]) (fs st1) /\
    missing st' build_dir.
Proof.
  intros Hi Hempty.
  set (dirs := cli_doc_dirs argv) in *. set (st0 := with_doc_dirs dirs st) in *.
  assert (Ri : respects (scratch_mkdir build_dir dirs) (init_docs build_dir dirs)).
  { apply respects_init_docs; simpl; [now left|].
    intros d Hd. right. now exists d. }
  destruct (Ri _ _ _ Hi) as (Hc & Hdd & _ & evs & Ht & Hf).
  assert (Hl : listing (fs st1) (cwd st1) (doc_dirs st1) = Ok []).
  { rewrite Hdd. apply listing_all_empty. exact Hempty. }
  assert (Hs : script W argv st
               = (Ok false,
                  mkState (FS.remove_tree (cwd st ++ [build_dir]) (fs st1)) (cwd st1)
                    (ticks st1) (doc_dirs st1) (ERmtree build_dir :: trace st1))).
  { rewrite script_run, run_outcome, run_checks_unfold. fold dirs st0.
    rewrite Hi, Hl. reflexivity. }
  eexists. exists evs. split; [exact Hs|]. split; [unfold main; now rewrite Hs|].
  split; [exact Ht|]. split; [exact Hf|]. split; [reflexivity|].
  split; [reflexivity|].
  pose proof (init_docs_isdir _ _ _ _ Hi) as Hd.
  destruct (rmtree_build_dir _ _ Hd) as [_ Lc].
  unfold missing. simpl. rewrite Hc in *. now apply missing_after_rmtree.
Qed.

Lemma empty_topics_run_witness :
  exists st',
    main Demo.W ["doc_diff.py"] Demo.empty = (0%Z, st') /\
    missing st' build_dir /\
    trace st' = [ERmtree "temp"; EMkdir "temp/Graph"; EMkdir "temp"].
Proof.
  edestruct (empty_topics_run Demo.W ["doc_diff.py"] Demo.empty)
    as (st' & evs & _ & H1 & _ & _ & H2 & _ & H3).
  - vm_compute. reflexivity.
  - intros d [<-|[]]. reflexivity.
  - exists st'. split; [exact H1|]. split; [exact H3|exact H2].
Defined.

Lemma scratch_path_prefix (e : string * string) :
  String.prefix (build_dir +++ "/") (spec_scratch_path e) = true.
Proof.
  unfold spec_scratch_path. rewrite <- append_assoc. apply prefix_append.
Qed.

Lemma report_path_prefix (rd c : string) :
  String.prefix (rd +++ "/") (spec_report_path rd c) = true.
Proof.
  unfold spec_report_path. rewrite <- append_assoc. apply prefix_append.
Qed.

Lemma descriptors_allowed (rd : string) (es all : list (string * string)) :
  incl es all ->
  Forall (item_allowed (file_event_ok rd all) rd) (map descriptor es).
Proof.
  intros Hincl. apply Forall_forall. intros item Hitem.
  apply in_map_iff in Hitem. destruct Hitem as (e & <- & He).
  apply Hincl in He. unfold descriptor, item_allowed, file_event_ok.
  repeat split.
  - exists e. tauto.
  - exists e. tauto.
  - intros _. exists e. tauto.
  - exists e. tauto.
  - exists e. split; [exact He|]. right. now apply report_path_as_specified.
Qed.




(** * Further properties of the script *)

(** ** Preparing directories *)

Lemma stat_resolve (f : FS.t) (c : FS.path) (p : string) (n : FS.node) :
  FS.stat f c p = Ok n ->
  exists q, FS.resolve f c p = Ok q /\ FS.lookup f q = Some n.
Proof.
  unfold FS.stat. destruct (FS.resolve f c p) as [q|]; [|discriminate].
  destruct (FS.lookup f q) eqn:L; [|discriminate].
  intros H. injection H as <-. now exists q.
Qed.

Lemma init_dir_noop (p : string) (st : state) :
  FS.isdir (fs st) (cwd st) p = true -> init_dir p st = (Ok tt, st).
Proof.
  intros H. unfold init_dir, os_path_isdir. unfold_m. now rewrite H.
Qed.

Lemma init_dir_post (p : string) (st st' : state) :
  init_dir p st = (Ok tt, st') ->
  FS.isdir (fs st') (cwd st') p = true /\ sub (fs st) (fs st') /\
  cwd st' = cwd st /\ ticks st' = ticks st /\
  (st' = st \/ trace st' = EMkdir p :: trace st).
Proof.
  intros H. split; [exact (init_dir_isdir _ _ _ H)|].
  unfold init_dir, os_path_isdir, os_mkdir in H. unfold_m.
  destruct (FS.isdir (fs st) (cwd st) p); simpl in H.
  - inv_pair H. repeat split; try reflexivity. + apply sub_refl. + now left.
  - destruct (FS.mkdir (fs st) (cwd st) p) as [f'|] eqn:Em; simpl in H;
      [|discriminate].
    inv_pair H. simpl. repeat split; try reflexivity.
    + exact (proj1 (mkdir_sub _ _ _ _ Em)). + now right.
Qed.

Lemma init_subdirs_post (bd : string) (dirs : list string) :
  forall st st',
    init_subdirs bd dirs st = (Ok tt, st') ->
    (forall d, In d dirs -> FS.isdir (fs st') (cwd st') (bd +++ "/" +++ d) = true) /\
    sub (fs st) (fs st') /\ cwd st' = cwd st /\ ticks st' = ticks st.
Proof.
  induction dirs as [|d rest IH]; intros st st' H; simpl in H.
  - unfold ret in H. inv_pair H. repeat split; try reflexivity; [|apply sub_refl].
    intros d [].
  - apply bind_ok_inv in H. destruct H as ([] & sa & Ha & Hb).
    destruct (init_dir_post _ _ _ Ha) as (Hd & Hs & Hc & Ht & _).
    destruct (IH _ _ Hb) as (Hall & Hs' & Hc' & Ht').
    repeat split; try congruence.
    + intros d' [<-|Hin]; [|now apply Hall].
      rewrite Hc'. eapply isdir_mono; [apply sub_dirs_le; exact Hs'|exact Hd].
    + intros q n Hq. apply Hs', Hs, Hq.
Qed.

Lemma init_subdirs_noop (bd : string) (dirs : list string) (st : state) :
  (forall d, In d dirs -> FS.isdir (fs st) (cwd st) (bd +++ "/" +++ d) = true) ->
  init_subdirs bd dirs st = (Ok tt, st).
Proof.
  induction dirs as [|d rest IH]; intros H; simpl; [reflexivity|].
  unfold bind. rewrite init_dir_noop by (apply H; now left).
  apply IH. intros d' Hd'. apply H. now right.
Qed.

(** X1.  [init_dir] on a path that is a directory does nothing; on a path
    that is a regular file it raises [FileExistsError] and changes
    nothing; and whenever it returns, the path is a directory, all that
    was on the disk is still there unchanged, and at most one directory
    was made. *)
Theorem init_dir_outcomes (p : string) (st : state) :
  (FS.isdir (fs st) (cwd st) p = true -> init_dir p st = (Ok tt, st)) /\
  (forall c t, FS.stat (fs st) (cwd st) p = Ok (FS.File c t) ->
               init_dir p st = (Raise FileExistsError, st)) /\
  (forall st', init_dir p st = (Ok tt, st') ->
     FS.isdir (fs st') (cwd st') p = true /\
     sub (fs st) (fs st') /\
     (st' = st \/ trace st' = EMkdir p :: trace st)).
Proof.
  split; [apply init_dir_noop|]. split.
  - intros c t H. destruct (stat_resolve _ _ _ _ H) as (q & Hr & Hl).
    unfold init_dir, os_path_isdir, os_mkdir. unfold_m.
    unfold FS.isdir, FS.is_dir, FS.mkdir. rewrite Hr, Hl. simpl.
    rewrite Hr, Hl. reflexivity.
  - intros st' H. destruct (init_dir_post _ _ _ H) as (H1 & H2 & _ & _ & H3).
    tauto.
Qed.

Lemma init_dir_outcomes_witness :
  init_dir "Graph" Demo.sub_state = (Ok tt, Demo.sub_state) /\
  init_dir "note" Demo.sub_state = (Raise FileExistsError, Demo.sub_state) /\
  FS.isdir (fs (snd (init_dir "temp" Demo.sub_state))) ["w"] "temp" = true.
Proof.
  destruct (init_dir_outcomes "Graph" Demo.sub_state) as (H1 & _ & _).
  destruct (init_dir_outcomes "note" Demo.sub_state) as (_ & H2 & _).
  destruct (init_dir_outcomes "temp" Demo.sub_state) as (_ & _ & H3).
  split; [apply H1; reflexivity|].
  split; [apply (H2 "keep me" 1%Z); reflexivity|].
  exact (proj1 (H3 _ eq_refl)).
Defined.

(** X2.  When [init_docs] returns, the scratch root and the scratch
    directory of every topic directory are directories, all that was on
    the disk before is still there unchanged, and the only events are
    makings of those scratch directories. *)
Theorem init_docs_prepares (bd : string) (dirs : list string) (st st1 : state) :
  init_docs bd dirs st = (Ok tt, st1) ->
  FS.isdir (fs st1) (cwd st1) bd = true /\
  (forall d, In d dirs -> FS.isdir (fs st1) (cwd st1) (bd +++ "/" +++ d) = true) /\
  sub (fs st) (fs st1) /\
  cwd st1 = cwd st /\ ticks st1 = ticks st /\
  exists evs, trace st1 = evs ++ trace st /\ Forall (scratch_mkdir bd dirs) evs.
Proof.
  intros H. split; [exact (init_docs_isdir _ _ _ _ H)|].
  assert (R : respects (scratch_mkdir bd dirs) (init_docs bd dirs)).
  { apply respects_init_docs; simpl; [now left|]. intros d Hd. right. now exists d. }
  destruct (R _ _ _ H) as (_ & _ & _ & evs & Ht & Hf).
  unfold init_docs in H. apply bind_ok_inv in H. destruct H as ([] & sa & Ha & Hb).
  destruct (init_dir_post _ _ _ Ha) as (_ & Hs & Hc & Ht1 & _).
  destruct (init_subdirs_post _ _ _ _ Hb) as (Hall & Hs' & Hc' & Ht').
  split; [exact Hall|]. split; [intros q n Hq; apply Hs', Hs, Hq|].
  split; [congruence|]. split; [congruence|]. now exists evs.
Qed.

Lemma init_docs_prepares_witness :
  exists st1,
    init_docs "temp" ["Graph"] Demo.start = (Ok tt, st1) /\
    FS.isdir (fs st1) (cwd st1) "temp" = true /\
    FS.isdir (fs st1) (cwd st1) "temp/Graph" = true /\
    sub (fs Demo.start) (fs st1).
Proof.
  eexists. split; [vm_compute; reflexivity|].
  edestruct (init_docs_prepares "temp" ["Graph"] Demo.start)
    as (H1 & H2 & H3 & _); [vm_compute; reflexivity|].
  split; [exact H1|]. split; [apply (H2 "Graph"); simpl; now left|exact H3].
Defined.

(** X3.  Preparing the scratch tree a second time does nothing: after a
    successful [init_docs] the same call returns at once with the state
    as it is. *)
Theorem init_docs_idempotent (bd : string) (dirs : list string) (st st1 : state) :
  init_docs bd dirs st = (Ok tt, st1) ->
  init_docs bd dirs st1 = (Ok tt, st1).
Proof.
  intros H. pose proof (init_docs_isdir _ _ _ _ H) as Hroot.
  unfold init_docs in H. apply bind_ok_inv in H. destruct H as ([] & sa & Ha & Hb).
  destruct (init_subdirs_post _ _ _ _ Hb) as (Hall & _).
  unfold init_docs, bind. rewrite init_dir_noop by exact Hroot.
  now apply init_subdirs_noop.
Qed.

Lemma init_docs_idempotent_witness :
  exists st1,
    init_docs "temp" ["Graph"] Demo.start = (Ok tt, st1) /\
    init_docs "temp" ["Graph"] st1 = (Ok tt, st1).
Proof.
  eexists. split; [vm_compute; reflexivity|].
  apply (init_docs_idempotent "temp" ["Graph"] Demo.start). vm_compute. reflexivity.
Defined.

(** ** The builder *)

(** X5.  When [build] returns, the identifier resolved and the output
    path is a regular file that holds the encoded text of [format_class]
    of the object, whatever was at the path before: reading the path
    gives those bytes back. *)
Theorem build_round_trip (W : world) (class_name output_name : string)
    (verbose : Z) (st st' : state) :
  build W class_name output_name verbose st = (Ok tt, st') ->
  exists ob bytes t,
    py_eval W class_name = Ok ob /\
    encode W (format_class W ob) = Ok bytes /\
    FS.stat (fs st') (cwd st') output_name = Ok (FS.File bytes t) /\
    FS.read_bytes (fs st') (cwd st') output_name = Ok bytes.
Proof.
  unfold build. intros H.
  apply bind_ok_inv in H. destruct H as ([] & sa & Ha & H).
  apply bind_ok_inv in H. destruct H as (ob & sb & Hb & H).
  unfold lift in Hb. inv_pair Hb.
  unfold write_file in H. unfold_m.
  destruct (FS.create (fs sb) (cwd sb) output_name) as [q|] eqn:Ecr; simpl in H;
    [|discriminate].
  destruct (encode W (format_class W ob)) as [bytes|] eqn:Eenc; simpl in H;
    [|discriminate].
  inv_pair H. simpl. exists ob, bytes, (mtime_at W (ticks sb)).
  split; [assumption|]. split; [exact Eenc|].
  pose proof (create_then_read _ _ _ bytes _ (mtime_at W (ticks sb)) Ecr) as Hrd.
  split; [|exact Hrd].
  pose proof (create_not_dir _ _ _ _ Ecr) as Hq.
  assert (Hr : FS.resolve (fs sb) (cwd sb) output_name = Ok q).
  { unfold FS.create in Ecr.
    destruct (FS.resolve (fs sb) (cwd sb) output_name) as [q0|]; [|discriminate].
    destruct (FS.lookup (fs sb) q0) as [[|]|]; try discriminate;
      destruct (FS.is_dir (fs sb) (removelast q0)); try discriminate; congruence. }
  unfold FS.stat.
  rewrite (resolve_mono _ _ _ _ _ (dirs_le_set_file (fs sb) q _ Hq) Hr), lookup_set.
  now destruct (FS.path_eq_dec q q).
Qed.

Lemma build_round_trip_witness :
  FS.read_bytes
    (fs (snd (build Demo.W "netket.graph.Hypercube" "Graph/Hypercube.md" 1 Demo.start)))
    ["w"] "Graph/Hypercube.md"
  = Ok "# netket.graph.Hypercube".
Proof.
  destruct (build_round_trip Demo.W "netket.graph.Hypercube" "Graph/Hypercube.md" 1
              Demo.start _ eq_refl)
    as (ob & bytes & t & H1 & H2 & _ & H3).
  vm_compute in H1. injection H1 as <-.
  vm_compute in H2. injection H2 as <-.
  exact H3.
Defined.

(** ** The comparator on what is not two regular files *)

(** X6.  When the reference or the candidate is missing, the comparator
    raises [FileNotFoundError] and changes nothing.  When the reference
    is a directory (the locator lists subdirectories like files) the
    comparison answers "inconsistent", the report root is made if need
    be, and reading the reference raises [IsADirectoryError]: nothing is
    written or printed. *)
Theorem comparator_irregular (W : world) (st : state)
    (ref_file mod_file class_name rd : string) (verbose : Z) :
  (missing st ref_file ->
   make_report W ref_file mod_file class_name rd verbose st
   = (Raise FileNotFoundError, st)) /\
  (forall n, FS.stat (fs st) (cwd st) ref_file = Ok n -> missing st mod_file ->
   make_report W ref_file mod_file class_name rd verbose st
   = (Raise FileNotFoundError, st)) /\
  (forall n f1,
     FS.stat (fs st) (cwd st) ref_file = Ok FS.Dir ->
     FS.stat (fs st) (cwd st) mod_file = Ok n ->
     FS.ensure_dir (fs st) (cwd st) rd = Ok f1 ->
     exists st' evs,
       make_report W ref_file mod_file class_name rd verbose st
       = (Raise IsADirectoryError, st') /\
       fs st' = f1 /\
       trace st' = evs ++ ECmp ref_file mod_file false :: trace st /\
       Forall is_mkdir evs).
Proof.
  split; [|split].
  - intros H. unfold missing in H. unfold make_report, filecmp_cmp, os_stat.
    unfold_m. now rewrite H.
  - intros n H1 H2. unfold missing in H2. unfold make_report, filecmp_cmp, os_stat.
    unfold_m. now rewrite H1, H2.
  - intros n f1 H1 H2 He.
    set (sa := with_event (ECmp ref_file mod_file false) st).
    destruct (init_dir_ok rd f1 sa He) as (evs & Hi & Hm).
    destruct (ensure_dir_sub _ _ _ _ He) as [Hsub _].
    destruct (stat_resolve _ _ _ _ H1) as (q & Hr & Hl).
    exists (mkState f1 (cwd sa) (ticks sa) (doc_dirs sa) (evs ++ trace sa)).
    exists evs. split; [|split; [|split; [reflexivity|exact Hm]]].
    + unfold make_report, bind at 1.
      rewrite (filecmp_cmp_ok _ _ _ _ _ H1 H2). simpl cmp_verdict. cbn [negb].
      fold sa. unfold bind at 1. unfold bind at 1. rewrite Hi.
      unfold bind at 1. unfold read_file. unfold_m.
      unfold FS.read_bytes.
      rewrite (resolve_mono _ _ _ _ _ (sub_dirs_le _ _ Hsub) Hr), (Hsub _ _ Hl).
      reflexivity.
    + reflexivity.
Qed.

Lemma comparator_irregular_witness :
  exists st',
    make_report Demo.W "Graph/old" "new.md" "netket.graph.old" "report" 1
      Demo.sub_state = (Raise IsADirectoryError, st') /\
    trace st' = [EMkdir "report"; ECmp "Graph/old" "new.md" false] /\
    make_report Demo.W "Graph/none.md" "new.md" "netket.graph.none" "report" 1
      Demo.sub_state = (Raise FileNotFoundError, Demo.sub_state).
Proof.
  destruct (comparator_irregular Demo.W Demo.sub_state "Graph/old" "new.md"
              "netket.graph.old" "report" 1) as (_ & _ & H).
  edestruct H as (st' & evs & H1 & _ & H2 & _); try (vm_compute; reflexivity).
  destruct (comparator_irregular Demo.W Demo.sub_state "Graph/none.md" "new.md"
              "netket.graph.none" "report" 1) as (H3 & _ & _).
  exists st'. split; [exact H1|]. split; [|apply H3; reflexivity].
  vm_compute in H1. injection H1 as <-. reflexivity.
Defined.

(** ** The locator and the report path *)

Lemma listing_app (f : FS.t) (c : FS.path) (a b : list string) :
  listing f c (a ++ b)
  = match listing f c a, listing f c b with
    | Ok ea, Ok eb => Ok (ea ++ eb)
    | Raise e, _ => Raise e
    | Ok _, Raise e => Raise e
    end.
Proof.
  induction a as [|d rest IH]; simpl.
  - now destruct (listing f c b).
  - destruct (FS.listdir f c d) as [names|e]; [|reflexivity].
    rewrite IH. destruct (listing f c rest) as [ea|e]; [|reflexivity].
    destruct (listing f c b) as [eb|e]; [|reflexivity].
    now rewrite app_assoc.
Qed.

(** X7.  Discovery goes directory by directory: what the locator returns
    for the topic directories [a] followed by [b] is what it returns for
    [a], followed sequence by sequence by what it returns for [b].  A
    directory named twice gives its documents twice. *)
Theorem locator_concatenates (st : state) (a b : list string)
    (r1 m1 c1 r2 m2 c2 : list string) :
  get_generated_docs (with_doc_dirs a st) = (Ok (r1, m1, c1), with_doc_dirs a st) ->
  get_generated_docs (with_doc_dirs b st) = (Ok (r2, m2, c2), with_doc_dirs b st) ->
  get_generated_docs (with_doc_dirs (a ++ b) st)
  = (Ok (r1 ++ r2, m1 ++ m2, c1 ++ c2), with_doc_dirs (a ++ b) st).
Proof.
  rewrite !get_generated_docs_maps. simpl. rewrite listing_app.
  destruct (listing (fs st) (cwd st) a) as [ea|]; [|discriminate].
  destruct (listing (fs st) (cwd st) b) as [eb|]; [|discriminate].
  intros H1 H2. injection H1 as <- <- <-. injection H2 as <- <- <-.
  now rewrite !map_app.
Qed.

Lemma locator_concatenates_witness :
  get_generated_docs (with_doc_dirs (["Graph"] ++ ["Graph"]) Demo.start)
  = (Ok (["Graph/Hypercube.md"] ++ ["Graph/Hypercube.md"],
         ["temp/Graph/Hypercube.md"] ++ ["temp/Graph/Hypercube.md"],
         ["netket.graph.Hypercube"] ++ ["netket.graph.Hypercube"]),
     with_doc_dirs (["Graph"] ++ ["Graph"]) Demo.start).
Proof.
  apply (locator_concatenates Demo.start ["Graph"] ["Graph"]); reflexivity.
Defined.

Lemma replace_append (a b : ascii) (x y : string) :
  PyStr.replace a b (x +++ y) = PyStr.replace a b x +++ PyStr.replace a b y.
Proof. induction x as [|c x IH]; simpl; [reflexivity|]. now rewrite IH. Qed.

Lemma replace_absent (a b : ascii) (x : string) :
  has_char a x = false -> PyStr.replace a b x = x.
Proof.
  induction x as [|c x IH]; simpl; [reflexivity|].
  intros H. apply orb_false_elim in H. destruct H as [Hc Hx].
  now rewrite Hc, IH.
Qed.

Lemma name_before_dot_no_dot (s : string) : has_char "." (name_before_dot s) = false.
Proof.
  induction s as [|c s IH]; simpl; [reflexivity|].
  destruct (Ascii.eqb c ".") eqn:E; [reflexivity|]. simpl. now rewrite E.
Qed.

Lemma lower_ascii_dot (c : ascii) :
  Ascii.eqb (PyStr.lower_ascii c) "." = Ascii.eqb c ".".
Proof. destruct c as [[] [] [] [] [] [] [] []]; reflexivity. Qed.

Lemma lower_no_dot (s : string) :
  has_char "." (PyStr.lower s) = has_char "." s.
Proof.
  induction s as [|c s IH]; simpl; [reflexivity|].
  now rewrite lower_ascii_dot, IH.
Qed.

Lemma out_file_of_entry (rd d f : string) :
  report_out_file rd (spec_class_id (d, f))
  = rd +++ "/" +++ PyStr.replace "." "/" (PyStr.lower d) +++ "/" +++ name_before_dot f.
Proof.
  unfold report_out_file, spec_class_id. simpl fst. simpl snd.
  change (PyStr.replace "." "/" ("netket." +++ PyStr.lower d +++ "." +++ name_before_dot f))
    with ("netket/" +++ PyStr.replace "." "/" (PyStr.lower d +++ "." +++ name_before_dot f)).
  change (PyStr.split "/" ("netket/" +++ PyStr.replace "." "/"
                             (PyStr.lower d +++ "." +++ name_before_dot f)))
    with ("netket" :: PyStr.split "/" (PyStr.replace "." "/"
                             (PyStr.lower d +++ "." +++ name_before_dot f))).
  cbn [tl]. rewrite join_split, replace_append.
  change (PyStr.replace "." "/" ("." +++ name_before_dot f))
    with ("/" +++ PyStr.replace "." "/" (name_before_dot f)).
  now rewrite (replace_absent "." "/" (name_before_dot f))
    by apply name_before_dot_no_dot.
Qed.

(** X8.  The report on the entry [f] of the topic directory [d] goes to
    the report root, then [d] in lower case with its dots turned into
    slashes, then the name of [f] before its first dot, then [.html];
    for a directory name without a dot that is
    [report root/d in lower case/name.html]. *)
Theorem report_path_of_entry (rd d f : string) :
  report_out_file rd (spec_class_id (d, f)) +++ ".html"
  = rd +++ "/" +++ PyStr.replace "." "/" (PyStr.lower d) +++ "/"
       +++ name_before_dot f +++ ".html" /\
  (has_char "." d = false ->
   report_out_file rd (spec_class_id (d, f)) +++ ".html"
   = rd +++ "/" +++ PyStr.lower d +++ "/" +++ name_before_dot f +++ ".html").
Proof.
  rewrite out_file_of_entry, !append_assoc. split; [reflexivity|].
  intros Hd. now rewrite replace_absent by (now rewrite lower_no_dot).
Qed.

Lemma report_path_of_entry_witness :
  report_out_file "reports" (spec_class_id ("Graph", "Hypercube.md")) +++ ".html"
  = "reports/graph/Hypercube.html".
Proof.
  exact (proj2 (report_path_of_entry "reports" "Graph" "Hypercube.md") eq_refl).
Defined.

(** ** The orchestrator: the flag, failures and what stays on the disk *)

(** X9.  When [run] returns, every descriptor the locator gave was
    compared once, in order, and the flag returned is [True] exactly when
    one of these comparisons was inconsistent; the removal of the scratch
    root is the last thing the run did. *)
Theorem run_flag (W : world) (bd : string) (dirs : list string) (rd : string)
    (st st' : state) (b : bool) :
  run W bd dirs rd st = (Ok b, st') ->
  exists sa es evs,
    init_docs bd dirs st = (Ok tt, sa) /\
    listing (fs sa) (cwd sa) (doc_dirs sa) = Ok es /\
    trace st' = ERmtree bd :: evs ++ trace sa /\
    map fst (comparisons evs)
    = map (fun e => (spec_ref_path e, spec_scratch_path e)) es /\
    b = some_inconsistent (comparisons evs).
Proof.
  unfold run. intros H.
  apply bind_ok_inv in H. destruct H as (err & s1 & Hc & H).
  apply bind_ok_inv in H. destruct H as ([] & s2 & Hr & H).
  unfold ret in H. inv_pair H.
  assert (Ht : trace st' = ERmtree bd :: trace s1).
  { unfold shutil_rmtree in Hr.
    destruct (FS.rmtree (fs s1) (cwd s1) bd) as [[u|e] f']; [|discriminate].
    now inv_pair Hr. }
  rewrite run_checks_unfold in Hc.
  destruct (init_docs bd dirs st) as [[[]|e] sa] eqn:Ei; [|discriminate].
  destruct (listing (fs sa) (cwd sa) (doc_dirs sa)) as [es|e] eqn:El; [|discriminate].
  destruct (run_loop_record W _ _ _ _ _ _ Hc) as (evs & HtL & Hk & Hb).
  exists sa, es, evs. split; [reflexivity|]. split; [exact El|].
  split; [now rewrite Ht, HtL|]. split; [now rewrite Hk, cmp_keys_descriptors|].
  exact Hb.
Qed.

Lemma run_flag_witness :
  exists st',
    run Demo.W build_dir ["Graph"] report_dir (with_doc_dirs ["Graph"] Demo.start)
    = (Ok true, st') /\
    comparisons (trace st') = [("Graph/Hypercube.md", "temp/Graph/Hypercube.md", false)].
Proof.
  eexists. split; [vm_compute; reflexivity|].
  edestruct (run_flag Demo.W build_dir ["Graph"] report_dir
               (with_doc_dirs ["Graph"] Demo.start))
    as (sa & es & evs & _ & _ & _ & _ & _); [vm_compute; reflexivity|].
  reflexivity.
Defined.

Lemma init_docs_keeps_root (bd : string) (dirs : list string)
    (st sa s1 : state) (r : result unit) :
  init_dir bd st = (Ok tt, sa) ->
  init_docs bd dirs st = (r, s1) ->
  FS.isdir (fs s1) (cwd s1) bd = true /\
  exists evs, trace s1 = evs ++ trace st /\ Forall not_rmtree evs.
Proof.
  intros Ha H.
  assert (Ri : respects not_rmtree (init_docs bd dirs))
    by (apply respects_init_docs; simpl; auto).
  destruct (Ri _ _ _ H) as (_ & _ & _ & evs & Ht & Hf).
  split; [|now exists evs].
  unfold init_docs, bind in H. rewrite Ha in H.
  assert (R : respects (fun _ => True) (init_subdirs bd dirs))
    by (now apply respects_init_subdirs).
  destruct (R _ _ _ H) as (Hc & _ & Hle & _).
  rewrite Hc. eapply isdir_mono; [exact Hle|]. exact (init_dir_isdir _ _ _ Ha).
Qed.

(** X10.  Nothing cleans up after a failure: when the scratch root could
    be prepared and the run then ends in an exception, the scratch root
    is still a directory and no removal was attempted. *)
Theorem failed_run_leaves_scratch (W : world) (dirs : list string) (rd : string)
    (st sa st' : state) (e : exn) :
  init_dir build_dir st = (Ok tt, sa) ->
  run W build_dir dirs rd st = (Raise e, st') ->
  FS.isdir (fs st') (cwd st') build_dir = true /\
  exists evs, trace st' = evs ++ trace st /\ Forall not_rmtree evs.
Proof.
  intros Ha H. rewrite run_outcome, run_checks_unfold in H.
  destruct (init_docs build_dir dirs st) as [[[]|e0] s1] eqn:Ei.
  - destruct (init_docs_keeps_root _ _ _ _ _ _ Ha Ei) as (Hd & evsA & HtA & HfA).
    destruct (listing (fs s1) (cwd s1) (doc_dirs s1)) as [es|e1].
    + destruct (run_loop W (map descriptor es) rd false s1) as [[b|e2] s2] eqn:El;
        [discriminate|].
      inv_pair H.
      assert (R : respects not_rmtree (run_loop W (map descriptor es) rd false)).
      { apply respects_run_loop; simpl; auto.
        apply Forall_forall. intros [[r m] c] _. simpl. tauto. }
      destruct (R _ _ _ El) as (Hc & _ & Hle & evsL & HtL & HfL).
      split.
      * rewrite Hc. eapply isdir_mono; eassumption.
      * exists (evsL ++ evsA). split; [rewrite HtL, HtA; apply app_assoc|].
        apply Forall_app. now split.
    + inv_pair H. split; [exact Hd|now exists evsA].
  - inv_pair H. exact (init_docs_keeps_root _ _ _ _ _ _ Ha Ei).
Qed.

Lemma failed_run_leaves_scratch_witness :
  exists st',
    run Demo.W build_dir ["Docs/Graph"] report_dir
      (with_doc_dirs ["Docs/Graph"] Demo.nested) = (Raise FileNotFoundError, st') /\
    FS.isdir (fs st') (cwd st') build_dir = true.
Proof.
  eexists. split; [vm_compute; reflexivity|].
  edestruct (failed_run_leaves_scratch Demo.W ["Docs/Graph"] report_dir
               (with_doc_dirs ["Docs/Graph"] Demo.nested)) as (H & _);
    [vm_compute; reflexivity|vm_compute; reflexivity|exact H].
Defined.

Section Preserved.

Context (W : world) (R : FS.t -> FS.t -> Prop).
Hypothesis R_refl : forall f, R f f.
Hypothesis R_trans : forall f g h, R f g -> R g h -> R f h.
Hypothesis R_set : forall f q n, FS.lookup f q <> Some FS.Dir -> R f (FS.set q n f).

Lemma preserves_same {A} (m : M A) :
  (forall st, fs (snd (m st)) = fs st) -> preserves R m.
Proof.
  intros Hm st r st' H. specialize (Hm st). rewrite H in Hm. simpl in Hm.
  rewrite Hm. apply R_refl.
Qed.

Lemma preserves_bind {A B} (m : M A) (k : A -> M B) :
  preserves R m -> (forall a, preserves R (k a)) -> preserves R (bind m k).
Proof.
  intros Hm Hk st r st' H. unfold bind in H.
  destruct (m st) as [[a|e] s1] eqn:E.
  - eapply R_trans; [exact (Hm _ _ _ E)|exact (Hk _ _ _ _ H)].
  - inv_pair H. exact (Hm _ _ _ E).
Qed.

Lemma preserves_init_dir (p : string) : preserves R (init_dir p).
Proof.
  intros st r st' H. unfold init_dir, os_path_isdir, os_mkdir in H. unfold_m.
  destruct (FS.isdir (fs st) (cwd st) p); simpl in H; [inv_pair H; apply R_refl|].
  unfold FS.mkdir in H.
  destruct (FS.resolve (fs st) (cwd st) p) as [q|]; simpl in H;
    [|inv_pair H; apply R_refl].
  destruct (FS.lookup (fs st) q) eqn:L; simpl in H; [inv_pair H; apply R_refl|].
  destruct (FS.is_dir (fs st) (removelast q)); simpl in H;
    inv_pair H; simpl; [|apply R_refl].
  apply R_set. congruence.
Qed.

Lemma preserves_write (p text : string) : preserves R (write_file W p text).
Proof.
  intros st r st' H. unfold write_file in H. unfold_m.
  destruct (FS.create (fs st) (cwd st) p) as [q|] eqn:E; simpl in H;
    [|inv_pair H; apply R_refl].
  pose proof (create_not_dir _ _ _ _ E) as Hq.
  destruct (encode W text); simpl in H; inv_pair H; simpl; now apply R_set.
Qed.

Lemma preserves_read (p : string) : preserves R (read_file W p).
Proof.
  apply preserves_same. intros st. unfold read_file. unfold_m.
  destruct (FS.read_bytes (fs st) (cwd st) p) as [b|]; simpl; [|reflexivity].
  now destruct (decode W b).
Qed.

Lemma preserves_cmp (f1 f2 : string) : preserves R (filecmp_cmp f1 f2).
Proof.
  apply preserves_same. intros st. unfold filecmp_cmp, os_stat. unfold_m.
  destruct (FS.stat (fs st) (cwd st) f1); simpl; [|reflexivity].
  now destruct (FS.stat (fs st) (cwd st) f2).
Qed.

Lemma preserves_init_docs (bd : string) (dirs : list string) :
  preserves R (init_docs bd dirs).
Proof.
  unfold init_docs. apply preserves_bind; [apply preserves_init_dir|intros _].
  induction dirs as [|d rest IH]; simpl; [now apply preserves_same|].
  apply preserves_bind; [apply preserves_init_dir|intros _; exact IH].
Qed.

Lemma preserves_make_report (r m c rd : string) (v : Z) :
  preserves R (make_report W r m c rd v).
Proof.
  unfold make_report. apply preserves_bind; [apply preserves_cmp|intros b].
  apply preserves_bind; [|intros _; now apply preserves_same].
  destruct (negb b); [|now apply preserves_same].
  apply preserves_bind; [apply preserves_init_dir|intros _].
  apply preserves_bind; [apply preserves_read|intros t1].
  apply preserves_bind; [apply preserves_read|intros t2].
  apply preserves_bind; [now apply preserves_same|intros _].
  apply preserves_bind; [apply preserves_init_dir|intros _].
  apply preserves_bind; [apply preserves_write|intros _].
  apply preserves_same. intros st. now destruct (negb (v =? 0)%Z).
Qed.

End Preserved.

Lemma keeps_refl (f : FS.t) : keeps f f.
Proof. intros q H; exact H. Qed.

Lemma keeps_trans (f g h : FS.t) : keeps f g -> keeps g h -> keeps f h.
Proof. intros H1 H2 q H. apply H2, H1, H. Qed.

Lemma keeps_set (f : FS.t) (q : FS.path) (n : FS.node) :
  FS.lookup f q <> Some FS.Dir -> keeps f (FS.set q n f).
Proof.
  intros _ p Hp. rewrite lookup_set.
  destruct (FS.path_eq_dec q p); [discriminate|exact Hp].
Qed.

(** X11.  The comparator and the preparation of the scratch tree remove
    nothing: however [make_report] or [init_docs] ends, with a value or
    with an exception, whatever was on the disk before is still there
    and what was a directory is still a directory. *)
Theorem script_calls_remove_nothing (W : world) (st : state) :
  (forall r m c rd v res st',
     make_report W r m c rd v st = (res, st') ->
     keeps (fs st) (fs st') /\ dirs_le (fs st) (fs st')) /\
  (forall bd dirs res st',
     init_docs bd dirs st = (res, st') ->
     keeps (fs st) (fs st') /\ dirs_le (fs st) (fs st')).
Proof.
  split.
  - intros r m c rd v res st' H. split.
    + exact (preserves_make_report W keeps keeps_refl keeps_trans keeps_set
               _ _ _ _ _ _ _ _ H).
    + exact (preserves_make_report W dirs_le dirs_le_refl dirs_le_trans
               dirs_le_set_file _ _ _ _ _ _ _ _ H).
  - intros bd dirs res st' H. split.
    + exact (preserves_init_docs keeps keeps_refl keeps_trans keeps_set _ _ _ _ _ H).
    + exact (preserves_init_docs dirs_le dirs_le_refl dirs_le_trans
               dirs_le_set_file _ _ _ _ _ H).
Qed.

Lemma script_calls_remove_nothing_witness :
  FS.lookup
    (fs (snd (make_report Demo.W "ref.md" "new.md" "netket.Foo" "report" 1
                Demo.pair_state)))
    ["w"; "ref.md"] <> None.
Proof.
  destruct (script_calls_remove_nothing Demo.W Demo.pair_state) as [H _].
  destruct (make_report Demo.W "ref.md" "new.md" "netket.Foo" "report" 1 Demo.pair_state)
    as [res st'] eqn:E.
  destruct (H _ _ _ _ _ _ _ E) as [Hk _].
  apply Hk. discriminate.
Defined.

(** ** A run on documents that are up to date *)

Lemma create_resolve (f : FS.t) (c : FS.path) (p : string) (q : FS.path) :
  FS.create f c p = Ok q ->
  FS.resolve f c p = Ok q /\ FS.is_dir f (removelast q) = true.
Proof.
  unfold FS.create. destruct (FS.resolve f c p) as [q0|]; [|discriminate].
  destruct (FS.lookup f q0) as [[|]|];
    try discriminate;
    destruct (FS.is_dir f (removelast q0)) eqn:E; try discriminate;
    intros H; injection H as <-; now split.
Qed.

Lemma set_file_dirs_ge (f : FS.t) (q : FS.path) (bytes : string) (t : Z) :
  dirs_le (FS.set q (FS.File bytes t) f) f.
Proof.
  intros p Hp. rewrite lookup_set in Hp.
  destruct (FS.path_eq_dec q p); [discriminate|exact Hp].
Qed.

Lemma create_after_write (f : FS.t) (c : FS.path) (p : string) (q q0 : FS.path)
    (bytes : string) (t : Z) :
  FS.lookup f q0 <> Some FS.Dir ->
  FS.create f c p = Ok q ->
  FS.create (FS.set q0 (FS.File bytes t) f) c p = Ok q.
Proof.
  intros Hq0 H. pose proof (create_not_dir _ _ _ _ H) as Hq.
  destruct (create_resolve _ _ _ _ H) as [Hr Hd].
  pose proof (dirs_le_set_file f q0 (FS.File bytes t) Hq0) as Hle.
  unfold FS.create. rewrite (resolve_mono _ _ _ _ _ Hle Hr).
  assert (Hd' : FS.is_dir (FS.set q0 (FS.File bytes t) f) (removelast q) = true).
  { unfold FS.is_dir in *.
    destruct (FS.lookup f (removelast q)) as [[|]|] eqn:L; try discriminate.
    now rewrite (Hle _ L). }
  rewrite Hd', lookup_set.
  destruct (FS.path_eq_dec q0 q); [reflexivity|].
  destruct (FS.lookup f q) as [[|]|]; [reflexivity|congruence|reflexivity].
Qed.

Section UpToDate.

Context (W : world) (es : list (string * string)) (rd : string).

Lemma up_to_date_step (e : string * string) (s : state) :
  docs_up_to_date W es s -> In e es ->
  exists s1 s2,
    build W (spec_class_id e) (spec_scratch_path e) 1 s = (Ok tt, s1) /\
    make_report W (spec_ref_path e) (spec_scratch_path e) (spec_class_id e) rd 1 s1
    = (Ok true, s2) /\
    docs_up_to_date W es s2 /\
    cwd s2 = cwd s /\
    trace s2
    = [ECmp (spec_ref_path e) (spec_scratch_path e) true;
       EWrite (spec_scratch_path e);
       EPrint ("Building documentation for: " +++ spec_class_id e)] ++ trace s.
Proof.
  intros Hinv He.
  destruct (Hinv e He) as (ob & bytes & t & r & q & Hev & Henc & Hr & Hl & Hcr & Hnc).
  pose proof (create_not_dir _ _ _ _ Hcr) as Hq.
  destruct (create_resolve _ _ _ _ Hcr) as [Hrq _].
  set (sp := with_event (EPrint ("Building documentation for: " +++ spec_class_id e)) s).
  pose proof (write_file_ok W (spec_scratch_path e) (format_class W ob) bytes q sp
                Hcr Henc) as Hw.
  set (s1 := mkState (FS.set q (FS.File bytes (mtime_at W (ticks sp))) (fs sp))
               (cwd sp) (S (ticks sp)) (doc_dirs sp)
               (EWrite (spec_scratch_path e) :: trace sp)) in *.
  pose proof (dirs_le_set_file (fs s) q (FS.File bytes (mtime_at W (ticks sp))) Hq)
    as Hle.
  pose proof (set_file_dirs_ge (fs s) q bytes (mtime_at W (ticks sp))) as Hge.
  assert (Hs1 : FS.stat (fs s1) (cwd s1) (spec_ref_path e) = Ok (FS.File bytes t)).
  { unfold FS.stat.
    change (fs s1) with (FS.set q (FS.File bytes (mtime_at W (ticks sp))) (fs s)).
    change (cwd s1) with (cwd s).
    rewrite (resolve_mono _ _ _ _ _ Hle Hr), lookup_set.
    destruct (FS.path_eq_dec q r) as [E|_]; [|now rewrite Hl].
    exfalso. exact (Hnc e r He Hr (eq_sym E)). }
  assert (Hs2 : FS.stat (fs s1) (cwd s1) (spec_scratch_path e)
                = Ok (FS.File bytes (mtime_at W (ticks sp)))).
  { unfold FS.stat.
    change (fs s1) with (FS.set q (FS.File bytes (mtime_at W (ticks sp))) (fs s)).
    change (cwd s1) with (cwd s).
    rewrite (resolve_mono _ _ _ _ _ Hle Hrq), lookup_set.
    now destruct (FS.path_eq_dec q q). }
  exists s1, (with_event (ECmp (spec_ref_path e) (spec_scratch_path e) true) s1).
  split; [|split; [|split; [|split; [reflexivity|reflexivity]]]].
  - unfold build. cbn [Z.eqb negb]. unfold bind at 1. unfold print, emit. fold sp.
    unfold bind at 1, lift. rewrite Hev. exact Hw.
  - unfold make_report, bind at 1.
    rewrite (filecmp_cmp_ok _ _ _ _ _ Hs1 Hs2), cmp_verdict_same. reflexivity.
  - intros e' He'.
    destruct (Hinv e' He')
      as (ob' & bytes' & t' & r' & q' & Hev' & Henc' & Hr' & Hl' & Hcr' & Hnc').
    exists ob', bytes', t', r', q'.
    change (fs (with_event (ECmp (spec_ref_path e) (spec_scratch_path e) true) s1))
      with (FS.set q (FS.File bytes (mtime_at W (ticks sp))) (fs s)).
    change (cwd (with_event (ECmp (spec_ref_path e) (spec_scratch_path e) true) s1))
      with (cwd s).
    split; [exact Hev'|]. split; [exact Henc'|].
    split; [exact (resolve_mono _ _ _ _ _ Hle Hr')|]. split.
    + rewrite lookup_set. destruct (FS.path_eq_dec q r') as [E|_]; [|exact Hl'].
      exfalso. exact (Hnc e' r' He' Hr' (eq_sym E)).
    + split; [now apply create_after_write|].
      intros e'' r'' He'' Hr''. apply (Hnc' e'' r'' He'').
      exact (resolve_mono _ _ _ _ _ Hge Hr'').
Qed.

Lemma up_to_date_loop (es' : list (string * string)) :
  incl es' es ->
  forall err s,
    docs_up_to_date W es s ->
    exists s' evs,
      run_loop W (map descriptor es') rd err s = (Ok err, s') /\
      cwd s' = cwd s /\
      trace s' = evs ++ trace s /\
      writes_of evs = map spec_scratch_path es' /\
      comparisons evs
      = map (fun e => (spec_ref_path e, spec_scratch_path e, true)) es' /\
      Forall (fun ev => ~ is_mkdir ev) evs.
Proof.
  induction es' as [|e rest IH]; intros Hincl err s Hinv.
  - exists s, []. simpl. unfold ret. repeat split; constructor.
  - assert (He : In e es) by (apply Hincl; now left).
    destruct (up_to_date_step e s Hinv He) as (s1 & s2 & Hb & Hm & Hinv2 & Hc2 & Ht2).
    destruct (IH (fun x Hx => Hincl x (or_intror Hx)) err s2 Hinv2)
      as (s' & evs & Hl & Hc & Ht & Hw & Hcmp & Hf).
    exists s', (evs ++ [ECmp (spec_ref_path e) (spec_scratch_path e) true;
                        EWrite (spec_scratch_path e);
                        EPrint ("Building documentation for: " +++ spec_class_id e)]).
    split; [|split; [congruence|split; [|split; [|split]]]].
    + simpl. unfold descriptor at 1. unfold bind at 1. rewrite Hb.
      unfold bind at 1. rewrite Hm. exact Hl.
    + rewrite Ht, Ht2. now rewrite <- app_assoc.
    + rewrite writes_of_app, Hw. reflexivity.
    + rewrite comparisons_app, Hcmp. reflexivity.
    + apply Forall_app. split; [exact Hf|].
      repeat constructor; intros H; exact H.
Qed.

End UpToDate.



(** ** The report slot of a plain topic directory *)

Lemma has_char_append (a : ascii) (x y : string) :
  has_char a (x +++ y) = has_char a x || has_char a y.
Proof.
  induction x as [|c x IH]; simpl; [reflexivity|]. now rewrite IH, orb_assoc.
Qed.

Lemma upto_last_absent (a : ascii) (y : string) :
  has_char a y = false -> PyStr.upto_last a y = EmptyString.
Proof.
  induction y as [|c y IH]; simpl; [reflexivity|].
  intros H. apply orb_false_elim in H. destruct H as [Hc Hy].
  now rewrite (IH Hy), Hc.
Qed.

Lemma upto_last_app (a : ascii) (A y : string) :
  has_char a y = false ->
  PyStr.upto_last a (A +++ String a y) = A +++ String a EmptyString.
Proof.
  intros Hy. induction A as [|c A IH]; simpl.
  - now rewrite (upto_last_absent a y Hy), Ascii.eqb_refl.
  - rewrite IH. now destruct A.
Qed.

Lemma rstrip_keep (a : ascii) (P x : string) :
  x <> EmptyString -> has_char a x = false -> PyStr.rstrip a (P +++ x) = P +++ x.
Proof.
  intros Hx Ha.
  assert (Base : PyStr.rstrip a x = x).
  { clear P. induction x as [|c x IH]; [congruence|]. simpl in *.
    apply orb_false_elim in Ha. destruct Ha as [Hc Hr].
    destruct x as [|c' x']; [simpl; now rewrite Hc|].
    rewrite IH by (discriminate || assumption). reflexivity. }
  induction P as [|c P IH]; simpl; [exact Base|].
  rewrite IH. destruct (P +++ x) eqn:E; [|reflexivity].
  destruct P; simpl in E; [congruence|discriminate].
Qed.

Lemma rstrip_app_sep (a : ascii) (B : string) :
  PyStr.rstrip a (B +++ String a EmptyString) = PyStr.rstrip a B.
Proof.
  induction B as [|c B IH]; simpl; [now rewrite Ascii.eqb_refl|]. now rewrite IH.
Qed.

Lemma all_char_with_other (a : ascii) (P x Q : string) :
  x <> EmptyString -> has_char a x = false -> PyStr.all_char a (P +++ x +++ Q) = false.
Proof.
  intros Hx Ha. induction P as [|c P IH]; simpl.
  - destruct x as [|c x]; [congruence|]. simpl in *.
    apply orb_false_elim in Ha. destruct Ha as [Hc _]. now rewrite Hc.
  - rewrite IH. apply andb_false_r.
Qed.

Lemma dirname_child (P x y : string) :
  x <> EmptyString -> has_char "/" x = false -> has_char "/" y = false ->
  PyStr.dirname (P +++ "/" +++ x +++ "/" +++ y) = P +++ "/" +++ x.
Proof.
  intros Hx Hsx Hsy. unfold PyStr.dirname.
  replace (P +++ "/" +++ x +++ "/" +++ y) with ((P +++ "/" +++ x) +++ String "/" y)
    by (now rewrite !append_assoc).
  rewrite upto_last_app by exact Hsy.
  assert (Hne : ((P +++ "/" +++ x) +++ "/" =? "")%string = false).
  { apply String.eqb_neq. destruct P; discriminate. }
  assert (Hall : PyStr.all_char "/" ((P +++ "/" +++ x) +++ "/") = false).
  { replace ((P +++ "/" +++ x) +++ "/") with ((P +++ "/") +++ x +++ "/")
      by (now rewrite !append_assoc).
    now apply all_char_with_other. }
  rewrite Hne, Hall. simpl negb. cbn [andb].
  rewrite rstrip_app_sep.
  replace (P +++ "/" +++ x) with ((P +++ "/") +++ x) by (now rewrite !append_assoc).
  now apply rstrip_keep.
Qed.

Lemma split_absent (a : ascii) (x : string) :
  has_char a x = false -> PyStr.split a x = [x].
Proof.
  induction x as [|c x IH]; simpl; [reflexivity|].
  intros H. apply orb_false_elim in H. destruct H as [Hc Hx].
  now rewrite Hc, (IH Hx).
Qed.

Lemma split_app_sep (a : ascii) (A x : string) :
  has_char a x = false ->
  PyStr.split a (A +++ String a x) = PyStr.split a A ++ [x].
Proof.
  intros Hx. induction A as [|c A IH]; simpl.
  - now rewrite Ascii.eqb_refl, (split_absent a x Hx).
  - rewrite IH. destruct (Ascii.eqb c a); [reflexivity|].
    destruct (PyStr.split a A) as [|w ws] eqn:E;
      [exfalso; exact (split_not_nil _ _ E)|reflexivity].
Qed.

Lemma walk_app (f : FS.t) (l1 l2 : list string) :
  forall cur,
    FS.walk f cur (l1 ++ l2)
    = match FS.walk f cur l1 with
      | Ok q => FS.walk f q l2
      | Raise e => Raise e
      end.
Proof.
  induction l1 as [|c l1 IH]; intros cur; simpl; [reflexivity|].
  destruct (c =? "")%string; [apply IH|].
  destruct (FS.lookup f cur) as [[|]|]; try reflexivity. apply IH.
Qed.

Lemma resolve_child (f : FS.t) (c : FS.path) (P : string) (qr : FS.path) (x : string) :
  FS.resolve f c P = Ok qr -> FS.lookup f qr = Some FS.Dir ->
  has_char "/" x = false -> x <> "" -> x <> "." -> x <> ".." ->
  FS.resolve f c (P +++ String "/" x) = Ok (qr ++ [x]).
Proof.
  intros Hr Hl Hs H0 H1 H2. unfold FS.resolve in *.
  destruct P as [|c0 P]; [discriminate|].
  change (String c0 P +++ String "/" x) with (String c0 (P +++ String "/" x)).
  change (String c0 (P +++ String "/" x)) with (String c0 P +++ String "/" x) at 2.
  rewrite (split_app_sep "/" (String c0 P) x Hs), walk_app, Hr.
  cbn [FS.walk]. apply String.eqb_neq in H0, H1, H2.
  rewrite H0, Hl. unfold FS.step. now rewrite H1, H2.
Qed.

Lemma lower_ascii_slash (c : ascii) :
  Ascii.eqb (PyStr.lower_ascii c) "/" = Ascii.eqb c "/".
Proof. destruct c as [[] [] [] [] [] [] [] []]; reflexivity. Qed.

Lemma lower_no_slash (s : string) :
  has_char "/" (PyStr.lower s) = has_char "/" s.
Proof.
  induction s as [|c s IH]; simpl; [reflexivity|].
  now rewrite lower_ascii_slash, IH.
Qed.

Lemma plain_lower (d : string) :
  plain_name d = true ->
  PyStr.lower d <> "" /\ has_char "/" (PyStr.lower d) = false /\
  has_char "." (PyStr.lower d) = false /\
  PyStr.lower d <> "." /\ PyStr.lower d <> "..".
Proof.
  unfold plain_name. intros H.
  apply andb_prop in H. destruct H as [H Hdot].
  apply andb_prop in H. destruct H as [Hne Hsl].
  apply negb_true_iff in Hne, Hsl, Hdot.
  assert (Hd : has_char "." (PyStr.lower d) = false) by (now rewrite lower_no_dot).
  split; [|split; [now rewrite lower_no_slash|split; [exact Hd|split]]].
  - destruct d; [discriminate|]. discriminate.
  - intros E. rewrite E in Hd. discriminate.
  - intros E. rewrite E in Hd. discriminate.
Qed.

Lemma html_name (y : string) :
  has_char "/" y = false ->
  has_char "/" (y +++ ".html") = false /\
  y +++ ".html" <> "" /\ y +++ ".html" <> "." /\ y +++ ".html" <> "..".
Proof.
  intros Hy. split; [now rewrite has_char_append, Hy|].
  destruct y as [|a [|b [|c y]]]; simpl; repeat split; discriminate.
Qed.

(** X13.  For the entry [f] of a topic directory [d] whose name is plain
    (not empty, no slash, no dot), the directory of the report is the
    report root followed by [d] in lower case, one level below the root.
    Once the report root is a directory, the comparator's second
    [init_dir] and the opening of the report file succeed, unless a
    regular file sits where that directory goes or a directory where the
    report file goes; the report lands two levels below the root. *)
Theorem report_slot_of_plain_entry (f1 : FS.t) (c : FS.path) (rd d f : string)
    (qr : FS.path) :
  plain_name d = true ->
  has_char "/" (name_before_dot f) = false ->
  FS.resolve f1 c rd = Ok qr ->
  FS.lookup f1 qr = Some FS.Dir ->
  (forall b t, FS.lookup f1 (qr ++ [PyStr.lower d]) <> Some (FS.File b t)) ->
  FS.lookup f1 ((qr ++ [PyStr.lower d]) ++ [name_before_dot f +++ ".html"])
  <> Some FS.Dir ->
  PyStr.dirname (report_out_file rd (spec_class_id (d, f)))
  = rd +++ "/" +++ PyStr.lower d /\
  exists f2,
    FS.ensure_dir f1 c (PyStr.dirname (report_out_file rd (spec_class_id (d, f))))
    = Ok f2 /\
    sub f1 f2 /\
    FS.create f2 c (spec_report_path rd (spec_class_id (d, f)))
    = Ok ((qr ++ [PyStr.lower d]) ++ [name_before_dot f +++ ".html"]).
Proof.
  intros Hp Hy Hr Hl Hnf Hnd.
  destruct (plain_lower d Hp) as (Hx0 & Hxs & Hxd & Hx1 & Hx2).
  destruct (html_name _ Hy) as (Hns & Hn0 & Hn1 & Hn2).
  set (x := PyStr.lower d) in *. set (y := name_before_dot f) in *.
  assert (Hout : report_out_file rd (spec_class_id (d, f)) = rd +++ "/" +++ x +++ "/" +++ y).
  { rewrite out_file_of_entry. fold x y. now rewrite (replace_absent "." "/" x Hxd). }
  assert (Hdir : PyStr.dirname (report_out_file rd (spec_class_id (d, f)))
                 = rd +++ "/" +++ x).
  { rewrite Hout. now apply dirname_child. }
  split; [exact Hdir|]. rewrite Hdir.
  pose proof (resolve_child f1 c rd qr x Hr Hl Hxs Hx0 Hx1 Hx2) as Hrx.
  change (rd +++ String "/" x) with (rd +++ "/" +++ x) in Hrx.
  assert (Hens : exists f2,
            FS.ensure_dir f1 c (rd +++ "/" +++ x) = Ok f2 /\ sub f1 f2 /\
            FS.lookup f2 (qr ++ [x]) = Some FS.Dir /\
            (forall p, p <> qr ++ [x] -> FS.lookup f2 p = FS.lookup f1 p)).
  { unfold FS.ensure_dir, FS.isdir, FS.is_dir, FS.mkdir. rewrite Hrx.
    destruct (FS.lookup f1 (qr ++ [x])) as [[b t|]|] eqn:L.
    - exfalso. exact (Hnf b t eq_refl).
    - exists f1. repeat split; [apply sub_refl|exact L].
    - rewrite removelast_last. unfold FS.is_dir. rewrite Hl.
      exists (FS.set (qr ++ [x]) FS.Dir f1). split; [reflexivity|].
      split; [now apply sub_set_new|]. split.
      + rewrite lookup_set. now destruct (FS.path_eq_dec (qr ++ [x]) (qr ++ [x])).
      + intros p Hne. rewrite lookup_set.
        destruct (FS.path_eq_dec (qr ++ [x]) p); [congruence|reflexivity]. }
  destruct Hens as (f2 & He & Hsub & Lx & Hframe).
  exists f2. split; [exact He|]. split; [exact Hsub|].
  rewrite <- report_path_as_specified by reflexivity. rewrite Hout.
  replace ((rd +++ "/" +++ x +++ "/" +++ y) +++ ".html")
    with ((rd +++ "/" +++ x) +++ String "/" (y +++ ".html"))
    by (now rewrite !append_assoc).
  pose proof (resolve_mono _ _ _ _ _ (sub_dirs_le _ _ Hsub) Hrx) as Hrx2.
  pose proof (resolve_child f2 c (rd +++ "/" +++ x) (qr ++ [x]) (y +++ ".html")
                Hrx2 Lx Hns Hn0 Hn1 Hn2) as Hrep.
  unfold FS.create. rewrite Hrep, removelast_last.
  unfold FS.is_dir. rewrite Lx.
  assert (Hq : FS.lookup f2 ((qr ++ [x]) ++ [y +++ ".html"])
               = FS.lookup f1 ((qr ++ [x]) ++ [y +++ ".html"])).
  { apply Hframe. intros E.
    apply (f_equal (@List.length string)) in E. rewrite !length_app in E.
    simpl in E. lia. }
  rewrite Hq.
  destruct (FS.lookup f1 ((qr ++ [x]) ++ [y +++ ".html"])) as [[|]|];
    [reflexivity|congruence|reflexivity].
Qed.

Lemma report_slot_of_plain_entry_witness :
  PyStr.dirname (report_out_file "report" (spec_class_id ("Graph", "Hypercube.md")))
  = "report/graph" /\
  exists f2,
    FS.ensure_dir Demo.report_disk ["w"] "report/graph" = Ok f2 /\
    FS.create f2 ["w"] "report/graph/Hypercube.html"
    = Ok ["w"; "report"; "graph"; "Hypercube.html"].
Proof.
  destruct (report_slot_of_plain_entry Demo.report_disk ["w"] "report" "Graph"
              "Hypercube.md" ["w"; "report"])
    as (H1 & f2 & H2 & _ & H3); try reflexivity; try discriminate.
  split; [exact H1|]. exists f2. split; [exact H2|exact H3].
Defined.
